(** * collect_and_store_tweets: a shallow embedding of
      [scripts/collect_and_store_tweets.py] and the properties of its
      credential loader, collection loop and multi-query driver.

    The script is sequential glue over two client libraries (tweepy and
    pymongo).  Its functions are embedded as computations in a small state
    and exception monad [Py]; the two libraries, the file system, [json] and
    [random] are the environment, whose answers are given by an
    [Environment] the development is parametric in. *)

From Stdlib Require Import ZArith String List Lia.
From stdpp Require Import base gmap strings list pretty.

Set Warnings "-register-all".
Open Scope Z_scope.

(** ** Python values *)

(** The values the script handles: what [json.loads] returns, the
    attributes of a tweet and the document given to [insert_one]. *)
Inductive pyval :=
| PNone
| PBool (b : bool)
| PInt (z : Z)
| PStr (s : string)
| PDatetime (posix : Z)
| PList (l : list pyval)
| PDict (d : gmap string pyval).

(** The exception classes the script meets.  [PyMongoError] and
    [TweepError] stand for the class and all its subclasses, which an
    [except] clause for the class catches alike. *)
Inductive exn :=
| StopIteration
| PyMongoError (detail : string)
| TweepError (reason : string)
| FileNotFoundError (path : string)
| JSONDecodeError
| KeyError (key : string)
| TypeError
| ValueError
| OtherException (cls : string).

(** ** tweepy and pymongo objects *)

(** [tweepy.API] as [twitter_api_setup] configures it. *)
Record API := {
  consumer_key : pyval;
  consumer_secret : pyval;
  access_token : pyval;
  access_secret : pyval;
  wait_on_rate_limit : bool;
  wait_on_rate_limit_notify : bool;
  retry_count : Z;
  retry_delay : Z
}.

(** The attributes of [tweet.user] and of [tweet] that the script reads. *)
Record User := {
  name : pyval;
  followers_count : pyval;
  location : pyval
}.

Record Status := {
  text : pyval;
  lang : pyval;
  created_at : pyval;
  user : User;
  retweet_count : pyval;
  favorite_count : pyval
}.

(** [tweepy.Cursor(api.search, q=.., since=.., until=.., result_type=..).items(n)] *)
Record SearchRequest := {
  session : API;
  q : string;
  since : string;
  until : string;
  result_type : string;
  items : Z
}.

(** A cursor object on the heap: the request it was opened with and how
    often [next()] has been called on it. *)
Record CursorObj := {
  request : SearchRequest;
  calls : nat
}.

(** What one call of [tweets.next()] does. *)
Inductive NextOutcome :=
| Item (tweet : Status)
| Throw (e : exn).

(** The client for a host and port, [client.<name>] and [db.<name>]. *)
Record Client := { client_host : string; client_port : Z }.
Record Database := { db_client : Client; db_name : string }.
Record Collection := { coll_db : Database; coll_name : string }.

Definition client_at (mongo_ip : string) (mongo_port : Z) : Client :=
  {| client_host := mongo_ip; client_port := mongo_port |}.
Definition client_getattr (c : Client) (attr : string) : Database :=
  {| db_client := c; db_name := attr |}.
Definition db_getattr (d : Database) (attr : string) : Collection :=
  {| coll_db := d; coll_name := attr |}.

Definition Collection_key (c : Collection) : string * Z * string * string :=
  (client_host (db_client (coll_db c)), client_port (db_client (coll_db c)),
   db_name (coll_db c), coll_name c).

Definition Collection_of_key (k : string * Z * string * string) : Collection :=
  let '(h, p, d, c) := k in
  db_getattr (client_getattr (client_at h p) d) c.

#[global] Instance Client_eq_dec : EqDecision Client.
Proof. solve_decision. Defined.

#[global] Instance Database_eq_dec : EqDecision Database.
Proof. solve_decision. Defined.

#[global] Instance Collection_eq_dec : EqDecision Collection.
Proof. solve_decision. Defined.

#[global] Program Instance Collection_countable : Countable Collection :=
  inj_countable' Collection_key Collection_of_key _.
Next Obligation. by intros [[[h p] d] c]. Qed.

(** ** Environment, world and trace *)

Inductive level := DEBUG | INFO | ERROR.

(** What the program does to the outside, in the order it does it.  A
    [Log] is the call of [logging.debug], [.info] or [.error], whatever
    the logger then does with it. *)
Inductive event :=
| Log (l : level) (msg : string)
| LogExc (l : level) (msg : string) (e : exn)
| Sleep (secs : Z)
| CursorOpen (tweets : nat) (r : SearchRequest)
| InsertOne (c : Collection) (doc : pyval)
| RandInt (a b r : Z).

(** The collaborators' answers.  [upstream k r i] is what the [i]-th call
    of [next()] does on the [k]-th cursor the program opened, which was
    opened with request [r]; [sink n c doc] is the exception the [n]-th
    call of [insert_one] raises, if any; [entropy n] feeds the [n]-th
    random draw; [auth_error ck cs] is the exception
    [tweepy.OAuthHandler(ck, cs)] raises, if any (tweepy 3 encodes a [str]
    key and secret as ASCII), and [client_error ip port] the one
    [MongoClient(ip, port)] raises, if any (pymongo refuses an empty
    host). *)
Record Environment := {
  py_str : pyval -> string;
  files : gmap string string;
  json_loads : string -> option pyval;
  upstream : nat -> SearchRequest -> nat -> NextOutcome;
  sink : nat -> Collection -> pyval -> option exn;
  entropy : nat -> Z;
  auth_error : pyval -> pyval -> option exn;
  client_error : string -> Z -> option exn
}.

Record World := {
  cursors : list CursorObj;
  inserts : nat;
  draws : nat;
  mongo : gmap Collection (list pyval);
  trace : list event
}.

Definition set_cursors (f : list CursorObj -> list CursorObj) (w : World) : World :=
  {| cursors := f (cursors w); inserts := inserts w; draws := draws w;
     mongo := mongo w; trace := trace w |}.
Definition set_inserts (n : nat) (w : World) : World :=
  {| cursors := cursors w; inserts := n; draws := draws w;
     mongo := mongo w; trace := trace w |}.
Definition set_draws (n : nat) (w : World) : World :=
  {| cursors := cursors w; inserts := inserts w; draws := n;
     mongo := mongo w; trace := trace w |}.
Definition set_mongo (m : gmap Collection (list pyval)) (w : World) : World :=
  {| cursors := cursors w; inserts := inserts w; draws := draws w;
     mongo := m; trace := trace w |}.
Definition emit (e : event) (w : World) : World :=
  {| cursors := cursors w; inserts := inserts w; draws := draws w;
     mongo := mongo w; trace := trace w ++ [e] |}.

Definition documents (c : Collection) (w : World) : list pyval :=
  default [] (mongo w !! c).

(** ** The monad *)

Inductive outcome (A : Type) :=
| Returns (a : A)
| Raises (e : exn)
| OutOfFuel.
Arguments Returns {A} a.
Arguments Raises {A} e.
Arguments OutOfFuel {A}.

Definition Py (A : Type) : Type := World -> outcome A * World.

#[global] Instance Py_ret : MRet Py := fun A a w => (Returns a, w).

#[global] Instance Py_bind : MBind Py := fun A B k m w =>
  match m w with
  | (Returns a, w') => k a w'
  | (Raises e, w') => (Raises e, w')
  | (OutOfFuel, w') => (OutOfFuel, w')
  end.

Definition raise {A} (e : exn) : Py A := fun w => (Raises e, w).
Definition out_of_fuel {A} : Py A := fun w => (OutOfFuel, w).

(** [try: body except <classes>: handler]: [handler e] is [None] for an
    exception no clause matches. *)
Definition try_except {A} (body : Py A) (handler : exn -> option (Py A)) : Py A :=
  fun w =>
    match body w with
    | (Raises e, w') =>
        match handler e with
        | Some h => h w'
        | None => (Raises e, w')
        end
    | r => r
    end.

Section Program.

Variable E : Environment.

(** ** Library calls *)

Definition log (l : level) (msg : string) : Py unit :=
  fun w => (Returns tt, emit (Log l msg) w).

(** [logging.error(msg, exc_info=True)] inside a handler for [e]. *)
Definition log_exc (l : level) (msg : string) (e : exn) : Py unit :=
  fun w => (Returns tt, emit (LogExc l msg e) w).

Definition sleep (secs : Z) : Py unit :=
  fun w => (Returns tt, emit (Sleep secs) w).

(** [random.randint(a, b)], that is [randrange(a, b + 1)]: [a] plus a
    draw below [b - a + 1], [ValueError] for an empty range.  The draw is
    the environment's; how it is distributed is not part of the model. *)
Definition randint (a b : Z) : Py Z :=
  fun w =>
    if b <? a then (Raises ValueError, w)
    else
      let r := a + entropy E (draws w) `mod` (b - a + 1) in
      (Returns r, emit (RandInt a b r) (set_draws (S (draws w)) w)).

(** A [{}] field of [str.format]: a [str] is inserted as it is. *)
Definition format_arg (v : pyval) : string :=
  match v with
  | PStr s => s
  | PInt z => pretty z
  | _ => py_str E v
  end.

(** [open(path).read()] *)
Definition read_file (path : string) : Py string :=
  fun w =>
    match files E !! path with
    | Some content => (Returns content, w)
    | None => (Raises (FileNotFoundError path), w)
    end.

(** [json.loads(s)] *)
Definition loads (s : string) : Py pyval :=
  fun w =>
    match json_loads E s with
    | Some v => (Returns v, w)
    | None => (Raises JSONDecodeError, w)
    end.

(** [obj[key]] for a [str] key. *)
Definition getitem (obj : pyval) (key : string) : Py pyval :=
  fun w =>
    match obj with
    | PDict d =>
        match d !! key with
        | Some v => (Returns v, w)
        | None => (Raises (KeyError key), w)
        end
    | _ => (Raises TypeError, w)
    end.

(** [tweepy.Cursor(api.search, ...).items(n)]: a new cursor object. *)
Definition Cursor_items (r : SearchRequest) : Py nat :=
  fun w =>
    let tweets := length (cursors w) in
    (Returns tweets,
     emit (CursorOpen tweets r)
       (set_cursors (fun cs => cs ++ [{| request := r; calls := 0 |}]) w)).

(** [tweets.next()]: the call counts whether it returns or raises.  (A
    handle that is not on the heap does not arise: the loop's only handle
    is the one [Cursor_items] returned.) *)
Definition next (tweets : nat) : Py Status :=
  fun w =>
    match cursors w !! tweets with
    | None => (Raises (OtherException "ReferenceError"), w)
    | Some c =>
        let w' := set_cursors
          (fun cs => <[tweets := {| request := request c; calls := S (calls c) |}]> cs) w in
        match upstream E tweets (request c) (calls c) with
        | Item tweet => (Returns tweet, w')
        | Throw e => (Raises e, w')
        end
    end.

(** [mongo_collection.insert_one(doc)]: the collection gains the document
    unless the call raises. *)
Definition insert_one (mongo_collection : Collection) (doc : pyval) : Py unit :=
  fun w =>
    let w' := emit (InsertOne mongo_collection doc) (set_inserts (S (inserts w)) w) in
    match sink E (inserts w) mongo_collection doc with
    | Some e => (Raises e, w')
    | None =>
        (Returns tt,
         set_mongo (<[mongo_collection := documents mongo_collection w ++ [doc]]> (mongo w)) w')
    end.

(** [tweepy.OAuthHandler(consumer_key, consumer_secret)]: the handler
    holds the two values. *)
Definition OAuthHandler (consumer_key consumer_secret : pyval) : Py (pyval * pyval) :=
  fun w =>
    match auth_error E consumer_key consumer_secret with
    | Some e => (Raises e, w)
    | None => (Returns (consumer_key, consumer_secret), w)
    end.

(** [MongoClient(mongo_ip, mongo_port)] *)
Definition MongoClient (mongo_ip : string) (mongo_port : Z) : Py Client :=
  fun w =>
    match client_error E mongo_ip mongo_port with
    | Some e => (Raises e, w)
    | None => (Returns (client_at mongo_ip mongo_port), w)
    end.

(** ** The script *)

(** Lines 11-24. *)
Definition load_twitter_credentials (keys_filename : string)
  : Py (pyval * pyval * pyval * pyval) :=
  api_credentials ← read_file keys_filename;
  api_twitter ← loads api_credentials;
  twitter ← getitem api_twitter "Twitter";
  consumer_key ← getitem twitter "consumer_key";
  twitter ← getitem api_twitter "Twitter";
  consumer_secret ← getitem twitter "consumer_secret";
  twitter ← getitem api_twitter "Twitter";
  access_token ← getitem twitter "access_token";
  twitter ← getitem api_twitter "Twitter";
  access_secret ← getitem twitter "access_secret";
  log DEBUG (format_arg consumer_key +:+ "-" +:+ format_arg consumer_secret +:+ "-"
             +:+ format_arg access_token +:+ "-" +:+ format_arg access_secret);;
  mret (consumer_key, consumer_secret, access_token, access_secret).

(** Lines 27-45.  [auth.set_access_token] and [tweepy.API] store what
    they are given. *)
Definition twitter_api_setup (consumer_key consumer_secret access_token access_secret : pyval)
  : Py API :=
  log INFO "twitter_api_setup >>>";;
  auth ← OAuthHandler consumer_key consumer_secret;
  let api := {| consumer_key := fst auth;
                consumer_secret := snd auth;
                access_token := access_token;
                access_secret := access_secret;
                wait_on_rate_limit := true;
                wait_on_rate_limit_notify := true;
                retry_count := 1000;
                retry_delay := 60 |} in
  log INFO "twitter_api_setup <<<";;
  mret api.

(** The dict literal of lines 74-84. *)
Definition filtered_tweet (query : string) (tweet : Status) : pyval :=
  PDict (list_to_map
    [("query", PStr query);
     ("text", text tweet);
     ("language", lang tweet);
     ("date", created_at tweet);
     ("username", name (user tweet));
     ("user_followers", followers_count (user tweet));
     ("user_location", location (user tweet));
     ("retweets", retweet_count tweet);
     ("likes", favorite_count tweet)]).

(** How one pass through the body of [while True] ends. *)
Inductive flow :=
| Continue (backoff_counter : Z)
| Break.

(** The [try] statement of lines 70-95. *)
Definition try_statement (query : string) (mongo_collection : Collection)
    (tweets : nat) (backoff_counter : Z) : Py flow :=
  try_except
    (tweet ← next tweets;
     log INFO ("Query: " +:+ query +:+ ", Tweet_date: " +:+ format_arg (created_at tweet));;
     insert_one mongo_collection (filtered_tweet query tweet);;
     mret (Continue backoff_counter))
    (fun e =>
       match e with
       | StopIteration =>
           Some (log INFO ("Finished collecting and storing tweets for " +:+ query);;
                 mret Break)
       | PyMongoError _ =>
           Some (log_exc ERROR "Error on writing on MongoDB" e;;
                 mret (Continue backoff_counter))
       | TweepError _ =>
           Some (log INFO ("Reached Tweet limits, waiting for "
                           +:+ format_arg (PInt (60 * backoff_counter)) +:+ " seconds");;
                 sleep (60 * backoff_counter);;
                 mret (Continue (backoff_counter + 1)))
       | _ => None
       end).

(** [while True:] of line 69, with one unit of fuel per pass. *)
Fixpoint while_true (fuel : nat) (query : string) (mongo_collection : Collection)
    (tweets : nat) (backoff_counter : Z) : Py unit :=
  match fuel with
  | O => out_of_fuel
  | S fuel' =>
      f ← try_statement query mongo_collection tweets backoff_counter;
      match f with
      | Continue backoff_counter' =>
          while_true fuel' query mongo_collection tweets backoff_counter'
      | Break => mret tt
      end
  end.

(** Lines 48-98; [number_of_tweets] is [None] when the caller omits it. *)
Definition collect_and_store_tweets_from_query (fuel : nat) (api : API)
    (query since_date until_date : string) (mongo_collection : Collection)
    (number_of_tweets : option Z) : Py unit :=
  let number_of_tweets := default 200 number_of_tweets in
  let backoff_counter := 1 in
  log INFO "collect_and_store_tweets_from_query >>>";;
  tweets ← Cursor_items {| session := api;
                           q := query +:+ " -filter:retweets";
                           since := since_date;
                           until := until_date;
                           result_type := "mixed";
                           items := number_of_tweets |};
  while_true fuel query mongo_collection tweets backoff_counter;;
  log INFO "collect_and_store_tweets_from_query <<<".

(** The [for] statement of lines 113-116. *)
Fixpoint for_query (fuel : nat) (api : API) (list_of_queries : list string)
    (since_date until_date : string) (mongodb_collection : Collection) : Py unit :=
  match list_of_queries with
  | [] => mret tt
  | query :: rest =>
      log INFO ("Working on: " +:+ query);;
      collect_and_store_tweets_from_query fuel api query since_date until_date
        mongodb_collection None;;
      secs ← randint 30 120;
      sleep secs;;
      for_query fuel api rest since_date until_date mongodb_collection
  end.

(** Lines 101-117. *)
Definition download_and_store_tweets_on_mongodb (fuel : nat) (api : API)
    (list_of_queries : list string) (since_date until_date : string)
    (mongodb_collection : Collection) : Py unit :=
  log INFO "download_and_store_tweets_on_mongodb >>>";;
  for_query fuel api list_of_queries since_date until_date mongodb_collection;;
  log INFO "download_and_store_tweets_on_mongodb <<<".

(** Lines 120-145. *)
Definition download_and_store_tweets_on_default_mongodb_instance (fuel : nat)
    (keys_filename : string) (list_of_queries : list string)
    (since_date until_date : string) (mongo_ip : string) (mongo_port : Z) : Py unit :=
  log INFO "download_and_store_tweets_on_default_mongodb_instance >>>";;
  '(consumer_key, consumer_secret, access_token, access_secret) ←
    load_twitter_credentials keys_filename;
  tweepy_api ← twitter_api_setup consumer_key consumer_secret access_token access_secret;
  client ← MongoClient mongo_ip mongo_port;
  let db := client_getattr client "dm_project" in
  let tweet_games := db_getattr db "twitter" in
  download_and_store_tweets_on_mongodb fuel tweepy_api list_of_queries
    since_date until_date tweet_games;;
  log INFO "download_and_store_tweets_on_default_mongodb_instance <<<".

End Program.

(** ** Observations on a run *)

Definition insert_calls (tr : list event) : list (Collection * pyval) :=
  omap (fun ev => match ev with InsertOne c doc => Some (c, doc) | _ => None end) tr.

Definition sleeps (tr : list event) : list Z :=
  omap (fun ev => match ev with Sleep secs => Some secs | _ => None end) tr.

Definition opened (tr : list event) : list SearchRequest :=
  omap (fun ev => match ev with CursorOpen _ r => Some r | _ => None end) tr.

Definition randints (tr : list event) : list (Z * Z * Z) :=
  omap (fun ev => match ev with RandInt a b r => Some (a, b, r) | _ => None end) tr.

Definition error_logs (tr : list event) : list (string * exn) :=
  omap (fun ev => match ev with LogExc ERROR msg e => Some (msg, e) | _ => None end) tr.

Definition debug_logs (tr : list event) : list string :=
  omap (fun ev => match ev with Log DEBUG msg => Some msg | _ => None end) tr.

(** The tweets that calls [i], [i+1], .., [i+n-1] of [next()] return. *)
Fixpoint fetched (stream : nat -> NextOutcome) (i n : nat) : list Status :=
  match n with
  | O => []
  | S n' =>
      match stream i with
      | Item tweet => tweet :: fetched stream (S i) n'
      | Throw _ => fetched stream (S i) n'
      end
  end.

(** How many of the calls [i], .., [i+n-1] of [next()] raise [TweepError]. *)
Fixpoint rate_limits (stream : nat -> NextOutcome) (i n : nat) : nat :=
  match n with
  | O => O
  | S n' =>
      match stream i with
      | Throw (TweepError _) => S (rate_limits stream (S i) n')
      | _ => rate_limits stream (S i) n'
      end
  end.

(** The exception classes the [try] statement has a clause for. *)
Definition handled (e : exn) : bool :=
  match e with
  | StopIteration | PyMongoError _ | TweepError _ => true
  | _ => false
  end.

Definition is_TweepError (e : exn) : bool :=
  match e with TweepError _ => true | _ => false end.

Definition is_PyMongoError (e : exn) : bool :=
  match e with PyMongoError _ => true | _ => false end.

(** The documents the sink stores out of [docs], when the first of them is
    given to call number [k] of [insert_one]. *)
Fixpoint accepted (E : Environment) (k : nat) (c : Collection) (docs : list pyval)
  : list pyval :=
  match docs with
  | [] => []
  | doc :: docs' =>
      match sink E k c doc with
      | None => doc :: accepted E (S k) c docs'
      | Some _ => accepted E (S k) c docs'
      end
  end.

(** The [PyMongoError]s the sink raises on [docs], when the first of them
    is given to call number [k] of [insert_one]. *)
Fixpoint rejected (E : Environment) (k : nat) (c : Collection) (docs : list pyval)
  : list exn :=
  match docs with
  | [] => []
  | doc :: docs' =>
      match sink E k c doc with
      | Some (PyMongoError detail) => PyMongoError detail :: rejected E (S k) c docs'
      | _ => rejected E (S k) c docs'
      end
  end.

(** [doc[key]] and [doc.keys()] of a document. *)
Definition field (doc : pyval) (key : string) : option pyval :=
  match doc with
  | PDict d => d !! key
  | _ => None
  end.

Definition keys (doc : pyval) : gset string :=
  match doc with
  | PDict d => dom d
  | _ => ∅
  end.

(** The request [collect_and_store_tweets_from_query] opens its cursor with. *)
Definition search_request (api : API) (query since_date until_date : string)
    (number_of_tweets : Z) : SearchRequest :=
  {| session := api;
     q := query +:+ " -filter:retweets";
     since := since_date;
     until := until_date;
     result_type := "mixed";
     items := number_of_tweets |}.

(** The names the docstring of
    [download_and_store_tweets_on_default_mongodb_instance] gives. *)
Definition docstring_db : string := "twitter".
Definition docstring_collection : string := "game_tweets".

(** The driver as the trace shows it: the cursors it opens and the pauses
    [sleep(randint(30, 120))] it makes. *)
Inductive step :=
| Invocation (r : SearchRequest)
| Pause (secs : Z).

Fixpoint schedule (tr : list event) : list step :=
  match tr with
  | [] => []
  | CursorOpen _ r :: tr' => Invocation r :: schedule tr'
  | RandInt a b r :: tr' =>
      match tr' with
      | Sleep secs :: _ =>
          if (a =? 30) && (b =? 120) && (secs =? r)
          then Pause r :: schedule tr' else schedule tr'
      | _ => schedule tr'
      end
  | _ :: tr' => schedule tr'
  end.

(** ** Vocabulary of the statements *)

Section Vocabulary.

Variable E : Environment.

(** The world after [n] more calls of [next()] on cursor [tweets]. *)
Definition advance (tweets : nat) (c : CursorObj) (n : nat) (w : World) : World :=
  set_cursors
    (fun cs => <[tweets := {| request := request c; calls := (n + calls c)%nat |}]> cs) w.

(** The sink raises no [TweepError]: rate-limit signals come from the
    upstream sequence only. *)
Definition sink_never_rate_limits (coll : Collection) : Prop :=
  forall k doc e, sink E k coll doc = Some e -> is_TweepError e = false.

(** A sink whose only failure is [PyMongoError]. *)
Definition sink_write_errors_only (coll : Collection) : Prop :=
  forall k doc e, sink E k coll doc = Some e -> is_PyMongoError e = true.

(** None of the calls [i], .., [i+n-1] of [next()] raises [PyMongoError]. *)
Definition no_write_error (stream : nat -> NextOutcome) (i n : nat) : Prop :=
  forall j detail, (i <= j < i + n)%nat -> stream j <> Throw (PyMongoError detail).

(** [60 * bc], [60 * (bc + 1)], ..: [m] back-off sleeps from counter [bc]. *)
Definition backoffs (bc : Z) (m : nat) : list Z :=
  map (fun k : nat => 60 * (bc + Z.of_nat k)) (seq 0 m).

(** From call [i] on, [next()] answers as [script] says and then raises
    [StopIteration]. *)
Definition plays (stream : nat -> NextOutcome) (i : nat) (script : list NextOutcome) : Prop :=
  (forall j o, script !! j = Some o -> stream (i + j)%nat = o) /\
  stream (i + length script)%nat = Throw StopIteration.

(** A persistent outage: every call of [next()] raises [TweepError]. *)
Definition outage (stream : nat -> NextOutcome) : Prop :=
  forall i, exists reason, stream i = Throw (TweepError reason).

(** An answer of [next()] after which the loop goes on. *)
Definition goes_on (o : NextOutcome) : bool :=
  match o with
  | Item _ => true
  | Throw e => is_TweepError e || is_PyMongoError e
  end.

Definition script_items (script : list NextOutcome) : list Status :=
  omap (fun o => match o with Item tweet => Some tweet | Throw _ => None end) script.

Definition script_rate_limits (script : list NextOutcome) : nat :=
  length (omap (fun o => match o with Throw (TweepError r) => Some r | _ => None end)
            script).

(** What a run of the loop from [w] with outcome and final world [r] did,
    in terms of the [n] calls of [next()] it made. *)
Record summary {A} (query : string) (coll : Collection) (tweets : nat) (c : CursorObj)
    (bc : Z) (w : World) (r : outcome A * World) (n : nat) (evs : list event) : Prop := {
  sum_cursors : cursors (snd r) = cursors (advance tweets c n w);
  sum_draws : draws (snd r) = draws w;
  sum_trace : trace (snd r) = trace w ++ evs;
  sum_calls : insert_calls evs =
    map (pair coll) (map (filtered_tweet query)
      (fetched (upstream E tweets (request c)) (calls c) n));
  sum_inserts : inserts (snd r) =
    (inserts w + length (fetched (upstream E tweets (request c)) (calls c) n))%nat;
  sum_documents : documents coll (snd r) =
    documents coll w ++ accepted E (inserts w) coll
      (map (filtered_tweet query) (fetched (upstream E tweets (request c)) (calls c) n));
  sum_frame : forall c', c' <> coll -> mongo (snd r) !! c' = mongo w !! c';
  sum_opened : opened evs = [];
  sum_randints : randints evs = [];
  sum_raises : forall e, fst r = Raises e -> handled e = false;
  sum_sleeps : sink_never_rate_limits coll ->
    sleeps evs = backoffs bc (rate_limits (upstream E tweets (request c)) (calls c) n);
  sum_errors : no_write_error (upstream E tweets (request c)) (calls c) n ->
    error_logs evs =
    map (pair "Error on writing on MongoDB")
      (rejected E (inserts w) coll
         (map (filtered_tweet query) (fetched (upstream E tweets (request c)) (calls c) n)))
}.

(** The file at [path] is a valid credentials file holding the four
    strings: it parses to an object whose key ["Twitter"] holds an object
    with the four fields. *)
Definition holds_credentials (path : string) (ck cs tok sec : string) : Prop :=
  exists content top twitter,
    files E !! path = Some content /\
    json_loads E content = Some (PDict top) /\
    top !! "Twitter" = Some (PDict twitter) /\
    twitter !! "consumer_key" = Some (PStr ck) /\
    twitter !! "consumer_secret" = Some (PStr cs) /\
    twitter !! "access_token" = Some (PStr tok) /\
    twitter !! "access_secret" = Some (PStr sec).

(** The line [load_twitter_credentials] logs. *)
Definition credentials_line (ck cs tok sec : string) : string :=
  ck +:+ "-" +:+ cs +:+ "-" +:+ tok +:+ "-" +:+ sec.

(** Two tuples of secrets that differ in exactly one secret. *)
Definition differ_in_one_secret (s1 s2 : string * string * string * string) : Prop :=
  let '(ck1, cs1, tok1, sec1) := s1 in
  let '(ck2, cs2, tok2, sec2) := s2 in
  (ck1 <> ck2 /\ cs1 = cs2 /\ tok1 = tok2 /\ sec1 = sec2) \/
  (ck1 = ck2 /\ cs1 <> cs2 /\ tok1 = tok2 /\ sec1 = sec2) \/
  (ck1 = ck2 /\ cs1 = cs2 /\ tok1 <> tok2 /\ sec1 = sec2) \/
  (ck1 = ck2 /\ cs1 = cs2 /\ tok1 = tok2 /\ sec1 <> sec2).

(** [sleep(randint(30, 120))] *)
Definition pause (w : World) : World :=
  let r := 30 + entropy E (draws w) `mod` 91 in
  emit (Sleep r) (emit (RandInt 30 120 r) (set_draws (S (draws w)) w)).

(** The steps the driver is to make for [qs], pausing [rs]. *)
Definition steps (api : API) (since_date until_date : string)
    (qs : list string) (rs : list Z) : list step :=
  concat (zip_with (fun query r =>
            [Invocation (search_request api query since_date until_date 200); Pause r])
          qs rs).

(** The events with which [collect_and_store_tweets_from_query] ends. *)
Definition closing {A} (o : outcome A) : list event :=
  match o with
  | Returns _ => [Log INFO "collect_and_store_tweets_from_query <<<"]
  | _ => []
  end.

(** What a call of [collect_and_store_tweets_from_query] from [w] with
    outcome and final world [r] did: it opened cursor [tweets] with request
    [req], called [next()] on it [n] times and emitted [evs] in between. *)
Record run (query : string) (coll : Collection) (tweets : nat) (req : SearchRequest)
    (w : World) (r : outcome unit * World) (n : nat) (evs : list event) : Prop := {
  run_cursors : cursors (snd r) = cursors w ++ [{| request := req; calls := n |}];
  run_draws : draws (snd r) = draws w;
  run_trace : trace (snd r) =
    trace w ++ Log INFO "collect_and_store_tweets_from_query >>>"
            :: CursorOpen tweets req :: evs ++ closing (fst r);
  run_calls : insert_calls evs =
    map (pair coll) (map (filtered_tweet query) (fetched (upstream E tweets req) 0 n));
  run_inserts : inserts (snd r) =
    (inserts w + length (fetched (upstream E tweets req) 0 n))%nat;
  run_documents : documents coll (snd r) =
    documents coll w ++ accepted E (inserts w) coll
      (map (filtered_tweet query) (fetched (upstream E tweets req) 0 n));
  run_frame : forall c', c' <> coll -> mongo (snd r) !! c' = mongo w !! c';
  run_opened : opened evs = [];
  run_randints : randints evs = [];
  run_raises : forall e, fst r = Raises e -> handled e = false;
  run_sleeps : sink_never_rate_limits coll ->
    sleeps evs = backoffs 1 (rate_limits (upstream E tweets req) 0 n);
  run_errors : no_write_error (upstream E tweets req) 0 n ->
    error_logs evs =
    map (pair "Error on writing on MongoDB")
      (rejected E (inserts w) coll
         (map (filtered_tweet query) (fetched (upstream E tweets req) 0 n)))
}.

End Vocabulary.

(** ** Further vocabulary *)

Section Endings.

Variable E : Environment.

(** The sum of the seconds slept. *)
Definition total (l : list Z) : Z := foldr Z.add 0 l.

(** From call [i] on, [next()] answers as [script] says and then raises
    [e]. *)
Definition follows (stream : nat -> NextOutcome) (i : nat) (script : list NextOutcome)
    (e : exn) : Prop :=
  (forall j o, script !! j = Some o -> stream (i + j)%nat = o) /\
  stream (i + length script)%nat = Throw e.

(** How the loop ends when [next()] raises [e], for [e] one of
    [StopIteration] and the classes without a handler. *)
Definition ending (e : exn) : outcome unit :=
  match e with
  | StopIteration => Returns tt
  | _ => Raises e
  end.

Definition ending_events (query : string) (e : exn) : list event :=
  match e with
  | StopIteration => [Log INFO ("Finished collecting and storing tweets for " +:+ query)]
  | _ => []
  end.

(** The events of a pass that fetches [tweet] and stores it. *)
Definition stored_events (query : string) (coll : Collection) (tweet : Status) : list event :=
  [Log INFO ("Query: " +:+ query +:+ ", Tweet_date: " +:+ format_arg E (created_at tweet));
   InsertOne coll (filtered_tweet query tweet)].

(** The session [twitter_api_setup] builds from the four credentials. *)
Definition session_of (ck cs tok sec : pyval) : API :=
  {| consumer_key := ck; consumer_secret := cs;
     access_token := tok; access_secret := sec;
     wait_on_rate_limit := true; wait_on_rate_limit_notify := true;
     retry_count := 1000; retry_delay := 60 |}.

(** A document written for one of the queries [qs]. *)
Definition tagged (qs : list string) (doc : pyval) : Prop :=
  exists query, query ∈ qs /\ field doc "query" = Some (PStr query).


(** The line logged before a back-off sleep of [secs] seconds. *)
Definition announcement (secs : Z) : string :=
  "Reached Tweet limits, waiting for " +:+ pretty secs +:+ " seconds".

(** Every [Sleep] of [tr] comes right after the info line that announces
    its number of seconds; [prev] is the event before [tr]. *)
Fixpoint announced (prev : option event) (tr : list event) : bool :=
  match tr with
  | [] => true
  | ev :: tr' =>
      match ev with
      | Sleep secs =>
          match prev with
          | Some (Log INFO msg) => String.eqb msg (announcement secs)
          | _ => false
          end
      | _ => true
      end && announced (Some ev) tr'
  end.

(** [l] does not begin with a [Sleep]. *)
Definition quiet_start (l : list event) : Prop :=
  match l with
  | Sleep _ :: _ => False
  | _ => True
  end.

End Endings.

(** ** Sample environments *)

Module Sample.

Definition tweet (body : string) : Status :=
  {| text := PStr body;
     lang := PStr "en";
     created_at := PDatetime 1577836800;
     user := {| name := PStr "ada"; followers_count := PInt 7; location := PNone |};
     retweet_count := PInt 0;
     favorite_count := PInt 3 |}.

(** A cursor that answers as [script] says and then raises
    [StopIteration] for good. *)
Definition scripted (script : list NextOutcome) (i : nat) : NextOutcome :=
  default (Throw StopIteration) (script !! i).

Definition credentials (ck cs tok sec : string) : pyval :=
  PDict {[ "Twitter" :=
    PDict (list_to_map [("consumer_key", PStr ck); ("consumer_secret", PStr cs);
                        ("access_token", PStr tok); ("access_secret", PStr sec)]) ]}.

Definition disk : gmap string string :=
  list_to_map [("keys.json", "valid"); ("other.json", "valid2");
               ("broken.json", "{"); ("empty.json", "{}");
               ("partial.json", "partial")].

Definition parses : gmap string pyval :=
  list_to_map
    [("valid", credentials "ck" "cs" "tok" "sec");
     ("valid2", credentials "ck" "cs" "tok" "sec2");
     ("{}", PDict ∅);
     ("partial", PDict {[ "Twitter" := PDict {[ "consumer_key" := PStr "ck" ]} ]})].

(** The upstream of every cursor plays [script]; the sink raises
    [failure] on call number [bad] of [insert_one] and accepts every
    other write. *)
Definition env (script : nat -> list NextOutcome) (bad : option nat) (failure : exn)
  : Environment :=
  {| py_str := fun _ => "<object>";
     files := disk;
     json_loads := fun s => parses !! s;
     upstream := fun k _ i => scripted (script k) i;
     sink := fun n _ _ => if decide (Some n = bad) then Some failure else None;
     entropy := fun n => 100 * Z.of_nat n + 77;
     auth_error := fun _ _ => None;
     client_error := fun _ _ => None |}.

(** Every call of [next()] raises [TweepError]. *)
Definition down : Environment :=
  {| py_str := fun _ => "<object>";
     files := disk;
     json_loads := fun s => parses !! s;
     upstream := fun _ _ _ => Throw (TweepError "429");
     sink := fun _ _ _ => None;
     entropy := fun _ => 0;
     auth_error := fun _ _ => None;
     client_error := fun _ _ => None |}.

Definition world : World :=
  {| cursors := []; inserts := 0; draws := 0; mongo := ∅; trace := [] |}.

Definition api : API :=
  {| consumer_key := PStr "ck"; consumer_secret := PStr "cs";
     access_token := PStr "tok"; access_secret := PStr "sec";
     wait_on_rate_limit := true; wait_on_rate_limit_notify := true;
     retry_count := 1000; retry_delay := 60 |}.

Definition coll : Collection :=
  db_getattr (client_getattr (client_at "localhost" 27017) "dm_project") "twitter".

Definition a_b_c : list Status := [tweet "a"; tweet "b"; tweet "c"].

(** A world in which cursor 0 is open and has not been asked yet. *)
Definition request0 : SearchRequest := search_request api "rocq" "2020-01-01" "2020-01-31" 200.

Definition opened_world : World :=
  {| cursors := [{| request := request0; calls := 0 |}];
     inserts := 0; draws := 0; mongo := ∅; trace := [] |}.

(** One rate-limit signal, then three tweets. *)
Definition once : Environment :=
  env (fun _ => Throw (TweepError "429") :: map Item a_b_c) None StopIteration.

(** The second tweet's write fails. *)
Definition flaky : Environment :=
  env (fun _ => map Item a_b_c) (Some 1%nat) (PyMongoError "down").

(** The second cursor raises an exception of no handled class after one
    tweet. *)
Definition broken : Environment :=
  env (fun k => if decide (k = 1%nat)
                then [Item (tweet "a"); Throw (OtherException "ConnectionError")]
                else [Item (tweet "a")])
    None StopIteration.

(** The first write raises an exception of no handled class. *)
Definition refusing : Environment :=
  env (fun _ => map Item a_b_c) (Some 0%nat) (OtherException "InvalidDocument").

(** Three tweets, every write accepted. *)
Definition steady : Environment :=
  env (fun _ => map Item a_b_c) None StopIteration.

(** Three tweets, then an exception of no handled class. *)
Definition fragile : Environment :=
  env (fun _ => map Item a_b_c ++ [Throw (OtherException "ConnectionError")])
    None StopIteration.

(** Two tweets for the first cursor, one for every other. *)
Definition per_query (k : nat) : list Status :=
  if decide (k = 0%nat) then [tweet "a"; tweet "b"] else [tweet "c"].

Definition library : Environment :=
  env (fun k => map Item (per_query k)) None StopIteration.

(** [tweepy.OAuthHandler] cannot encode the key. *)
Definition unauthorised : Environment :=
  {| py_str := fun _ => "<object>";
     files := disk;
     json_loads := fun s => parses !! s;
     upstream := fun _ _ i => scripted (map Item a_b_c) i;
     sink := fun _ _ _ => None;
     entropy := fun _ => 0;
     auth_error := fun _ _ => Some (OtherException "UnicodeEncodeError");
     client_error := fun _ _ => None |}.

(** [MongoClient] refuses an empty host. *)
Definition offline : Environment :=
  {| py_str := fun _ => "<object>";
     files := disk;
     json_loads := fun s => parses !! s;
     upstream := fun _ _ i => scripted (map Item a_b_c) i;
     sink := fun _ _ _ => None;
     entropy := fun _ => 0;
     auth_error := fun _ _ => None;
     client_error := fun host _ =>
       if decide (host = "") then Some (OtherException "ConfigurationError") else None |}.

End Sample.

(** * Properties *)

Ltac trace_eq := rewrite <- ?app_assoc; simpl; reflexivity.

Ltac summary_field Hup Hsink :=
  simpl; rewrite ?Hup; simpl; rewrite ?Hsink; simpl;
  first
    [ trace_eq
    | lia
    | by rewrite ?app_nil_r
    | by unfold documents; simpl; rewrite ?lookup_insert_eq, ?app_nil_r
    | by intros e' [= <-]
    | by intros c' Hc'; rewrite ?lookup_insert_ne
    | by intros Hquiet; try (specialize (Hquiet _ _ _ Hsink))
    | intros bc' [= <-] Hquiet; first [lia | by specialize (Hquiet _ _ _ Hsink)]
    | by intros bc' Hbc'
    | by intros _; unfold backoffs; simpl; rewrite Z.add_0_r
    | by intros Hnw; exfalso; eapply (Hnw _ _ ltac:(split; [reflexivity|lia])), Hup ].

Section Properties.

Variable E : Environment.

(** ** The collection loop *)

Lemma try_statement_unfold query coll tweets bc w c :
  cursors w !! tweets = Some c ->
  try_statement E query coll tweets bc w =
  let w1 := advance tweets c 1 w in
  let handler e w' :=
    match e with
    | StopIteration =>
        (Returns Break,
         emit (Log INFO ("Finished collecting and storing tweets for " +:+ query)) w')
    | PyMongoError _ =>
        (Returns (Continue bc), emit (LogExc ERROR "Error on writing on MongoDB" e) w')
    | TweepError _ =>
        (Returns (Continue (bc + 1)),
         emit (Sleep (60 * bc))
           (emit (Log INFO ("Reached Tweet limits, waiting for "
                            +:+ pretty (60 * bc) +:+ " seconds")) w'))
    | _ => (Raises e, w')
    end in
  match upstream E tweets (request c) (calls c) with
  | Throw e => handler e w1
  | Item tweet =>
      let doc := filtered_tweet query tweet in
      let w2 := emit (Log INFO ("Query: " +:+ query +:+ ", Tweet_date: "
                                +:+ format_arg E (created_at tweet))) w1 in
      let w3 := emit (InsertOne coll doc) (set_inserts (S (inserts w)) w2) in
      match sink E (inserts w) coll doc with
      | None =>
          (Returns (Continue bc),
           set_mongo (<[coll := documents coll w ++ [doc]]> (mongo w)) w3)
      | Some e => handler e w3
      end
  end.
Proof.
  intros Hc. unfold try_statement, try_except, mbind, Py_bind, next. rewrite Hc.
  destruct (upstream E tweets (request c) (calls c)) as [tweet|e]; simpl.
  - unfold insert_one. simpl.
    destruct (sink E (inserts w) coll (filtered_tweet query tweet)) as [e|]; simpl.
    + destruct e; reflexivity.
    + reflexivity.
  - destruct e; reflexivity.
Qed.

Lemma while_true_S fuel query coll tweets bc w :
  while_true E (S fuel) query coll tweets bc w =
  match try_statement E query coll tweets bc w with
  | (Returns (Continue bc'), w') => while_true E fuel query coll tweets bc' w'
  | (Returns Break, w') => (Returns tt, w')
  | (Raises e, w') => (Raises e, w')
  | (OutOfFuel, w') => (OutOfFuel, w')
  end.
Proof.
  simpl. unfold mbind, Py_bind.
  destruct (try_statement E query coll tweets bc w) as [[[bc'|]|e|] w']; reflexivity.
Qed.

Lemma fetched_S stream i n :
  fetched stream i (S n) = fetched stream i 1 ++ fetched stream (S i) n.
Proof. simpl. by destruct (stream i). Qed.

Lemma rate_limits_S stream i n :
  rate_limits stream i (S n) = (rate_limits stream i 1 + rate_limits stream (S i) n)%nat.
Proof. simpl. by destruct (stream i) as [|[]]. Qed.

Lemma accepted_app k c docs1 docs2 :
  accepted E k c (docs1 ++ docs2)
  = accepted E k c docs1 ++ accepted E (k + length docs1) c docs2.
Proof.
  revert k. induction docs1 as [|doc docs1 IH]; intros k; simpl.
  - by rewrite Nat.add_0_r.
  - rewrite IH, Nat.add_succ_r. by destruct (sink E k c doc).
Qed.

Lemma rejected_app k c docs1 docs2 :
  rejected E k c (docs1 ++ docs2)
  = rejected E k c docs1 ++ rejected E (k + length docs1) c docs2.
Proof.
  revert k. induction docs1 as [|doc docs1 IH]; intros k; simpl.
  - by rewrite Nat.add_0_r.
  - rewrite IH, Nat.add_succ_r. by destruct (sink E k c doc) as [[]|].
Qed.

Lemma no_write_error_S stream i n :
  no_write_error stream i (S n) ->
  no_write_error stream i 1 /\ no_write_error stream (S i) n.
Proof.
  intros H. split; intros j detail Hj; apply H; lia.
Qed.

Lemma backoffs_S bc m : backoffs bc (S m) = 60 * bc :: backoffs (bc + 1) m.
Proof.
  unfold backoffs. simpl. f_equal; [f_equal; lia|].
  rewrite <- seq_shift, map_map. apply map_ext. intros k. lia.
Qed.

Lemma backoffs_add bc m1 m2 :
  backoffs bc (m1 + m2) = backoffs bc m1 ++ backoffs (bc + Z.of_nat m1) m2.
Proof.
  revert bc. induction m1 as [|m1 IH]; intros bc.
  - simpl. by rewrite Z.add_0_r.
  - change (S m1 + m2)%nat with (S (m1 + m2)). rewrite !backoffs_S, IH. simpl.
    do 3 f_equal. lia.
Qed.

Lemma advance_lookup tweets c n w :
  cursors w !! tweets = Some c ->
  cursors (advance tweets c n w) !! tweets
  = Some {| request := request c; calls := (n + calls c)%nat |}.
Proof.
  intros Hc. simpl. apply list_lookup_insert_eq. by eapply lookup_lt_Some.
Qed.

(** One pass through the [try] statement. *)
Lemma try_statement_summary query coll tweets bc w c :
  cursors w !! tweets = Some c ->
  exists evs,
    summary E query coll tweets c bc w (try_statement E query coll tweets bc w) 1 evs /\
    fst (try_statement E query coll tweets bc w) <> OutOfFuel /\
    (forall bc', fst (try_statement E query coll tweets bc w) = Returns (Continue bc') ->
       sink_never_rate_limits E coll ->
       bc' = bc + Z.of_nat (rate_limits (upstream E tweets (request c)) (calls c) 1)).
Proof.
  intros Hc. rewrite (try_statement_unfold _ _ _ _ _ _ Hc). cbv zeta.
  destruct (upstream E tweets (request c) (calls c)) as [tweet|e] eqn:Hup.
  - destruct (sink E (inserts w) coll (filtered_tweet query tweet)) as [e|] eqn:Hsink.
    + destruct e; eexists; (split; [split|split]); summary_field Hup Hsink.
    + eexists; (split; [split|split]); summary_field Hup Hsink.
  - destruct e; eexists; (split; [split|split]); summary_field Hup Hup.
Qed.

(** A pass followed by a run is a run. *)
Lemma summary_cons {A B} query coll tweets c bc bc1 w (r1 : outcome A * World)
    (r : outcome B * World) n evs1 evs :
  cursors w !! tweets = Some c ->
  summary E query coll tweets c bc w r1 1 evs1 ->
  (sink_never_rate_limits E coll ->
   bc1 = bc + Z.of_nat (rate_limits (upstream E tweets (request c)) (calls c) 1)) ->
  summary E query coll tweets {| request := request c; calls := S (calls c) |} bc1
    (snd r1) r n evs ->
  summary E query coll tweets c bc w r (S n) (evs1 ++ evs).
Proof.
  intros Hc [A1 A2 A3 A4 A5 A6 A7 A8 A9 _ A11 A12] Hbc
    [B1 B2 B3 B4 B5 B6 B7 B8 B9 B10 B11 B12].
  cbn [request calls advance set_cursors cursors] in *.
  split.
  - rewrite B1, A1, list_insert_insert_eq. by rewrite Nat.add_succ_r.
  - congruence.
  - rewrite B3, A3. by rewrite app_assoc.
  - unfold insert_calls in *. rewrite omap_app, (fetched_S _ _ n), !map_app. by f_equal.
  - rewrite B5, A5, (fetched_S _ _ n), length_app. lia.
  - rewrite B6, A6, A5, (fetched_S _ _ n), map_app, accepted_app, length_map.
    by rewrite app_assoc.
  - intros c' Hc'. by rewrite B7, A7.
  - unfold opened in *. by rewrite omap_app, A8, B8.
  - unfold randints in *. by rewrite omap_app, A9, B9.
  - done.
  - intros Hquiet. unfold sleeps in *. rewrite omap_app, (rate_limits_S _ _ n), backoffs_add.
    rewrite <- Hbc by done. f_equal; auto.
  - intros [Hnw1 Hnw]%no_write_error_S. unfold error_logs in *.
    rewrite omap_app, (fetched_S _ _ n), !map_app, rejected_app, length_map, map_app.
    rewrite A5 in B12. f_equal; auto.
Qed.

(** The loop, whatever its outcome: it made [n] calls of [next()], at most
    one per unit of fuel. *)
Lemma while_true_summary fuel : forall query coll tweets bc w c,
  cursors w !! tweets = Some c ->
  exists n evs,
    (n <= fuel)%nat /\
    (fst (while_true E fuel query coll tweets bc w) = OutOfFuel -> n = fuel) /\
    summary E query coll tweets c bc w (while_true E fuel query coll tweets bc w) n evs.
Proof.
  induction fuel as [|fuel IH]; intros query coll tweets bc w c Hc.
  { exists O, []. split; [lia|]. split; [done|].
    split; simpl; rewrite ?app_nil_r; try done.
    destruct c; by rewrite list_insert_id. }
  rewrite while_true_S.
  destruct (try_statement_summary query coll tweets bc w c Hc) as (evs1 & Hsum & Hfuel & Hbc).
  destruct (try_statement E query coll tweets bc w) as [[[bc1|]|e|] w1] eqn:Htry;
    simpl in Hfuel; try done.
  - assert (Hc1 : cursors w1 !! tweets = Some {| request := request c; calls := S (calls c) |}).
    { pose proof (sum_cursors _ _ _ _ _ _ _ _ _ _ Hsum) as Hcs. simpl in Hcs.
      rewrite Hcs. by apply (advance_lookup tweets c 1). }
    destruct (IH query coll tweets bc1 w1 _ Hc1) as (n & evs & Hn & Hout & Hrest).
    exists (S n), (evs1 ++ evs). split; [lia|]. split; [intros; f_equal; auto|].
    eapply (summary_cons _ _ _ _ _ bc1); [done|exact Hsum| |exact Hrest].
    intros Hquiet. by apply Hbc.
  - exists 1%nat, evs1. split; [lia|]. split; [done|].
    destruct Hsum. by split.
  - exists 1%nat, evs1. split; [lia|]. split; [done|].
    destruct Hsum as [? ? ? ? ? ? ? ? ? Hr ? ?]. split; try done.
    intros e' [= <-]. by apply Hr.
Qed.

(** ** One call of [collect_and_store_tweets_from_query] *)

Lemma collect_unfold fuel api query since_date until_date coll limit w :
  collect_and_store_tweets_from_query E fuel api query since_date until_date coll limit w =
  let req := search_request api query since_date until_date (default 200 limit) in
  let tweets := length (cursors w) in
  let w0 := emit (CursorOpen tweets req)
              (set_cursors (fun cs => cs ++ [{| request := req; calls := 0 |}])
                 (emit (Log INFO "collect_and_store_tweets_from_query >>>") w)) in
  match while_true E fuel query coll tweets 1 w0 with
  | (Returns _, w') =>
      (Returns tt, emit (Log INFO "collect_and_store_tweets_from_query <<<") w')
  | r => r
  end.
Proof.
  unfold collect_and_store_tweets_from_query, mbind, Py_bind, Cursor_items, log,
    search_request. simpl.
  match goal with |- context [while_true E fuel query coll ?t ?b ?w0] =>
    destruct (while_true E fuel query coll t b w0) as [[[]|e|] w'] end; reflexivity.
Qed.

Lemma collect_run fuel api query since_date until_date coll limit w :
  exists n evs,
    (n <= fuel)%nat /\
    (fst (collect_and_store_tweets_from_query E fuel api query since_date until_date
            coll limit w) = OutOfFuel -> n = fuel) /\
    run E query coll (length (cursors w))
      (search_request api query since_date until_date (default 200 limit)) w
      (collect_and_store_tweets_from_query E fuel api query since_date until_date
         coll limit w) n evs.
Proof.
  rewrite collect_unfold. cbv zeta.
  set (req := search_request api query since_date until_date (default 200 limit)).
  set (tweets := length (cursors w)).
  set (w0 := emit (CursorOpen tweets req) _).
  assert (Hc : cursors w0 !! tweets = Some {| request := req; calls := 0 |}).
  { subst w0 tweets. simpl. by rewrite lookup_app_r, Nat.sub_diag. }
  destruct (while_true_summary fuel query coll tweets 1 w0 _ Hc)
    as (n & evs & Hn & Hout & [H1 H2 H3 H4 H5 H6 H7 H8 H9 H10 H11 H12]).
  exists n, evs. split; [done|].
  cbn [request calls] in *.
  assert (Hcs : cursors (advance tweets {| request := req; calls := 0 |} n w0)
                = cursors w ++ [{| request := req; calls := n |}]).
  { subst w0 tweets. simpl. rewrite Nat.add_0_r.
    rewrite insert_app_r_alt, Nat.sub_diag by done. done. }
  destruct (while_true E fuel query coll tweets 1 w0) as [[[]|e|] w'] eqn:Hrun;
    simpl in *; (split; [done|]); split; simpl;
    rewrite ?H1, ?H2, ?H3, ?H5, ?H6, ?H7; try done.
  all: try (subst w0; simpl; rewrite <- ?app_assoc; simpl; by rewrite ?app_nil_r).
Qed.

(** ** Runs against a scripted upstream *)

Lemma plays_cons stream i o script :
  plays stream i (o :: script) -> stream i = o /\ plays stream (S i) script.
Proof.
  intros [Hs Hend]. split; [|split].
  - rewrite <- (Nat.add_0_r i). by apply Hs.
  - intros j o' Hj. rewrite Nat.add_succ_comm. by apply Hs.
  - simpl in Hend. by rewrite Nat.add_succ_comm.
Qed.

Lemma plays_nil stream i : plays stream i [] -> stream i = Throw StopIteration.
Proof. intros [_ Hend]. simpl in Hend. by rewrite Nat.add_0_r in Hend. Qed.

Lemma plays_fetched script : forall stream i,
  plays stream i script ->
  fetched stream i (S (length script)) = script_items script.
Proof.
  induction script as [|o script IH]; intros stream i Hp.
  - simpl. by rewrite (plays_nil _ _ Hp).
  - destruct (plays_cons _ _ _ _ Hp) as [Ho Hp'].
    rewrite (fetched_S _ _ (S (length script))), (IH _ _ Hp'). simpl.
    rewrite Ho. by destruct o.
Qed.

Lemma plays_rate_limits script : forall stream i,
  plays stream i script ->
  rate_limits stream i (S (length script)) = script_rate_limits script.
Proof.
  induction script as [|o script IH]; intros stream i Hp.
  - simpl. by rewrite (plays_nil _ _ Hp).
  - destruct (plays_cons _ _ _ _ Hp) as [Ho Hp'].
    rewrite (rate_limits_S _ _ (S (length script))), (IH _ _ Hp'). simpl.
    rewrite Ho. by destruct o as [|[]].
Qed.

Lemma write_errors_only_quiet coll :
  sink_write_errors_only E coll -> sink_never_rate_limits E coll.
Proof. intros H k doc e He. specialize (H k doc e He). by destruct e. Qed.

(** Against a script of tweets, rate-limit signals and write errors that
    ends in [StopIteration], the loop returns after one call of [next()]
    per entry and one more, given that much fuel. *)
Lemma while_true_plays script : forall fuel query coll tweets bc w c,
  cursors w !! tweets = Some c ->
  plays (upstream E tweets (request c)) (calls c) script ->
  forallb goes_on script = true ->
  sink_write_errors_only E coll ->
  (length script < fuel)%nat ->
  fst (while_true E fuel query coll tweets bc w) = Returns tt /\
  cursors (snd (while_true E fuel query coll tweets bc w)) !! tweets
  = Some {| request := request c; calls := (S (length script) + calls c)%nat |}.
Proof.
  induction script as [|o script IH]; intros fuel query coll tweets bc w c Hc Hp Hgo Hsink Hfuel.
  - destruct fuel as [|fuel]; [simpl in Hfuel; lia|].
    rewrite while_true_S, (try_statement_unfold _ _ _ _ _ _ Hc). cbv zeta.
    rewrite (plays_nil _ _ Hp). simpl. split; [done|].
    apply list_lookup_insert_eq. by eapply lookup_lt_Some.
  - destruct fuel as [|fuel]; [simpl in Hfuel; lia|].
    destruct (plays_cons _ _ _ _ Hp) as [Ho Hp'].
    simpl in Hgo. apply andb_prop in Hgo as [Hgo1 Hgo2].
    pose proof (advance_lookup tweets c 1 w Hc) as Hc1.
    assert (Hlen : (length script < fuel)%nat) by (simpl in Hfuel; lia).
    assert (Hgoal : forall b w1,
      cursors w1 = cursors (advance tweets c 1 w) ->
      fst (while_true E fuel query coll tweets b w1) = Returns tt /\
      cursors (snd (while_true E fuel query coll tweets b w1)) !! tweets
      = Some {| request := request c; calls := (S (length (o :: script)) + calls c)%nat |}).
    { intros b w1 Hw1. rewrite <- Hw1 in Hc1.
      destruct (IH fuel query coll tweets b w1 _ Hc1 Hp' Hgo2 Hsink Hlen) as [R1 R2].
      split; [done|]. rewrite R2. simpl. by rewrite Nat.add_succ_r. }
    rewrite while_true_S, (try_statement_unfold _ _ _ _ _ _ Hc). cbv zeta.
    rewrite Ho. destruct o as [tweet|e].
    + destruct (sink E (inserts w) coll (filtered_tweet query tweet)) as [e|] eqn:He.
      * specialize (Hsink _ _ _ He). destruct e; try done. by apply Hgoal.
      * by apply Hgoal.
    + destruct e; try done; by apply Hgoal.
Qed.

Lemma collect_plays fuel api query since_date until_date coll limit w script :
  plays (upstream E (length (cursors w))
           (search_request api query since_date until_date (default 200 limit))) 0 script ->
  forallb goes_on script = true ->
  sink_write_errors_only E coll ->
  (length script < fuel)%nat ->
  fst (collect_and_store_tweets_from_query E fuel api query since_date until_date
         coll limit w) = Returns tt /\
  exists evs,
    run E query coll (length (cursors w))
      (search_request api query since_date until_date (default 200 limit)) w
      (collect_and_store_tweets_from_query E fuel api query since_date until_date
         coll limit w) (S (length script)) evs.
Proof.
  intros Hp Hgo Hsink Hfuel.
  destruct (collect_run fuel api query since_date until_date coll limit w)
    as (n & evs & _ & _ & Hrun).
  pose proof (run_cursors _ _ _ _ _ _ _ _ _ Hrun) as Hcs.
  revert Hrun Hcs. rewrite collect_unfold. cbv zeta.
  set (req := search_request api query since_date until_date (default 200 limit)) in *.
  set (tweets := length (cursors w)).
  set (w0 := emit (CursorOpen tweets req) _).
  assert (Hc : cursors w0 !! tweets = Some {| request := req; calls := 0 |}).
  { subst w0 tweets. simpl. by rewrite lookup_app_r, Nat.sub_diag. }
  destruct (while_true_plays script fuel query coll tweets 1 w0 _ Hc Hp Hgo Hsink Hfuel)
    as [R1 R2].
  destruct (while_true E fuel query coll tweets 1 w0) as [[[]|e|] w'];
    simpl in R1; try done.
  intros Hrun Hcs. simpl in *. split; [done|].
  rewrite Hcs in R2. subst tweets.
  rewrite lookup_app_r, Nat.sub_diag in R2 by done. simpl in R2.
  injection R2 as ->. rewrite Nat.add_0_r in Hrun. by exists evs.
Qed.

(** ** The multi-query driver *)

Lemma for_query_cons fuel api query rest since_date until_date coll w :
  for_query E fuel api (query :: rest) since_date until_date coll w =
  match collect_and_store_tweets_from_query E fuel api query since_date until_date
          coll None (emit (Log INFO ("Working on: " +:+ query)) w) with
  | (Returns _, w1) => for_query E fuel api rest since_date until_date coll (pause E w1)
  | (Raises e, w1) => (Raises e, w1)
  | (OutOfFuel, w1) => (OutOfFuel, w1)
  end.
Proof.
  cbn [for_query]. unfold mbind, Py_bind, log, randint, sleep, pause.
  destruct (collect_and_store_tweets_from_query E fuel api query since_date until_date
              coll None (emit (Log INFO ("Working on: " +:+ query)) w))
    as [[[]|e|] w1]; reflexivity.
Qed.

Lemma for_query_app fuel api qs1 qs2 since_date until_date coll : forall w,
  for_query E fuel api (qs1 ++ qs2) since_date until_date coll w =
  match for_query E fuel api qs1 since_date until_date coll w with
  | (Returns _, w1) => for_query E fuel api qs2 since_date until_date coll w1
  | r => r
  end.
Proof.
  induction qs1 as [|query qs1 IH]; intros w; [done|].
  rewrite <- app_comm_cons, !for_query_cons.
  destruct (collect_and_store_tweets_from_query E fuel api query since_date until_date
              coll None (emit (Log INFO ("Working on: " +:+ query)) w))
    as [[[]|e|] w1]; [apply IH|done|done].
Qed.

Lemma download_unfold fuel api qs since_date until_date coll w :
  download_and_store_tweets_on_mongodb E fuel api qs since_date until_date coll w =
  match for_query E fuel api qs since_date until_date coll
          (emit (Log INFO "download_and_store_tweets_on_mongodb >>>") w) with
  | (Returns _, w1) =>
      (Returns tt, emit (Log INFO "download_and_store_tweets_on_mongodb <<<") w1)
  | r => r
  end.
Proof.
  unfold download_and_store_tweets_on_mongodb, mbind, Py_bind, log.
  destruct (for_query E fuel api qs since_date until_date coll _) as [[[]|e|] w1];
    reflexivity.
Qed.

Lemma opened_app l1 l2 : opened (l1 ++ l2) = opened l1 ++ opened l2.
Proof. apply omap_app. Qed.

Lemma randints_app l1 l2 : randints (l1 ++ l2) = randints l1 ++ randints l2.
Proof. apply omap_app. Qed.

Lemma insert_calls_app l1 l2 : insert_calls (l1 ++ l2) = insert_calls l1 ++ insert_calls l2.
Proof. apply omap_app. Qed.

Lemma sleeps_app l1 l2 : sleeps (l1 ++ l2) = sleeps l1 ++ sleeps l2.
Proof. apply omap_app. Qed.

Lemma pause_range (x : Z) : 30 <= 30 + x `mod` 91 <= 120.
Proof. pose proof (Z.mod_pos_bound x 91). lia. Qed.

Lemma schedule_quiet_app l1 l2 :
  randints l1 = [] ->
  schedule (l1 ++ l2) = map Invocation (opened l1) ++ schedule l2.
Proof.
  induction l1 as [|ev l1 IH]; intros Hq; [done|].
  destruct ev; simpl in *; try done; rewrite IH; done.
Qed.

Lemma schedule_pause r l : schedule (RandInt 30 120 r :: Sleep r :: l) = Pause r :: schedule l.
Proof. simpl. by rewrite Z.eqb_refl. Qed.

(** A run of the [for] statement that returns. *)
Lemma for_query_returns fuel api since_date until_date coll qs : forall w,
  fst (for_query E fuel api qs since_date until_date coll w) = Returns tt ->
  exists evs rs,
    trace (snd (for_query E fuel api qs since_date until_date coll w)) = trace w ++ evs /\
    length rs = length qs /\
    Forall (fun r => 30 <= r <= 120) rs /\
    schedule evs = steps api since_date until_date qs rs /\
    opened evs = map (fun query => search_request api query since_date until_date 200) qs /\
    randints evs = map (fun r => (30, 120, r)) rs /\
    (qs <> [] -> exists pre r, evs = pre ++ [RandInt 30 120 r; Sleep r]).
Proof.
  induction qs as [|query qs IH]; intros w Hret.
  { exists [], []. simpl. rewrite app_nil_r. repeat split; try done. }
  revert Hret. rewrite for_query_cons.
  destruct (collect_run fuel api query since_date until_date coll None
              (emit (Log INFO ("Working on: " +:+ query)) w))
    as (n & evs1 & _ & _ & [_ _ T _ _ _ _ O R _ _ _]).
  destruct (collect_and_store_tweets_from_query E fuel api query since_date until_date
              coll None (emit (Log INFO ("Working on: " +:+ query)) w))
    as [[[]|e|] w1]; try done.
  intros Hret. destruct (IH _ Hret) as (evs & rs & Ht & Hlen & Hrs & Hsch & Hop & Hrand & Hlast).
  simpl in T.
  set (r := 30 + entropy E (draws w1) `mod` 91) in *.
  set (block := Log INFO ("Working on: " +:+ query)
                :: Log INFO "collect_and_store_tweets_from_query >>>"
                :: CursorOpen (length (cursors w))
                     (search_request api query since_date until_date 200)
                :: evs1 ++ [Log INFO "collect_and_store_tweets_from_query <<<"]).
  assert (Hb1 : randints block = []).
  { change (randints (evs1 ++ [Log INFO "collect_and_store_tweets_from_query <<<"]) = []).
    by rewrite randints_app, R. }
  assert (Hb2 : opened block = [search_request api query since_date until_date 200]).
  { change (search_request api query since_date until_date 200
            :: opened (evs1 ++ [Log INFO "collect_and_store_tweets_from_query <<<"])
            = [search_request api query since_date until_date 200]).
    by rewrite opened_app, O. }
  exists (block ++ [RandInt 30 120 r; Sleep r] ++ evs), (r :: rs).
  split; [|split; [|split; [|split; [|split; [|split]]]]].
  - rewrite Ht. unfold pause. fold r. simpl. rewrite T. subst block.
    rewrite <- !app_assoc. simpl. by rewrite <- !app_assoc.
  - simpl. by rewrite Hlen.
  - constructor; [apply pause_range|done].
  - rewrite schedule_quiet_app, Hb2 by done.
    change ([RandInt 30 120 r; Sleep r] ++ evs) with (RandInt 30 120 r :: Sleep r :: evs).
    by rewrite schedule_pause, Hsch.
  - by rewrite !opened_app, Hb2, Hop.
  - by rewrite !randints_app, Hb1, Hrand.
  - intros _. destruct qs as [|query' qs].
    + exists block, r. simpl in Ht.
      revert Ht. rewrite <- (app_nil_r (trace (pause E w1))) at 1.
      intros Ht%app_inv_head. by subst evs.
    + destruct Hlast as (pre & r' & ->); [done|].
      exists (block ++ RandInt 30 120 r :: Sleep r :: pre), r'.
      by rewrite <- !app_assoc.
Qed.

(** A run of the [for] statement, whatever its outcome, writes into
    [coll] only. *)
Lemma for_query_frame fuel api since_date until_date coll qs : forall w,
  exists evs,
    trace (snd (for_query E fuel api qs since_date until_date coll w)) = trace w ++ evs /\
    Forall (fun call => fst call = coll) (insert_calls evs) /\
    (forall c', c' <> coll ->
       mongo (snd (for_query E fuel api qs since_date until_date coll w)) !! c'
       = mongo w !! c').
Proof.
  induction qs as [|query qs IH]; intros w.
  { exists []. simpl. by rewrite app_nil_r. }
  rewrite for_query_cons.
  destruct (collect_run fuel api query since_date until_date coll None
              (emit (Log INFO ("Working on: " +:+ query)) w))
    as (n & evs1 & _ & _ & [_ _ T C _ _ F _ _ _ _ _]).
  assert (HC : Forall (fun call => fst call = coll) (insert_calls evs1)).
  { rewrite C. generalize (map (filtered_tweet query)
      (fetched (upstream E (length (cursors (emit (Log INFO ("Working on: " +:+ query)) w)))
         (search_request api query since_date until_date (default 200 None))) 0 n)).
    intros docs. induction docs; by constructor. }
  set (pre := [Log INFO ("Working on: " +:+ query);
               Log INFO "collect_and_store_tweets_from_query >>>";
               CursorOpen (length (cursors (emit (Log INFO ("Working on: " +:+ query)) w)))
                 (search_request api query since_date until_date (default 200 None))]).
  destruct (collect_and_store_tweets_from_query E fuel api query since_date until_date
              coll None (emit (Log INFO ("Working on: " +:+ query)) w))
    as [[[]|e|] w1]; simpl in T, F.
  - destruct (IH (pause E w1)) as (evs & Ht & Hc & Hf).
    exists (pre ++ evs1 ++ [Log INFO "collect_and_store_tweets_from_query <<<";
                            RandInt 30 120 (30 + entropy E (draws w1) `mod` 91);
                            Sleep (30 + entropy E (draws w1) `mod` 91)] ++ evs).
    split; [|split].
    + rewrite Ht. unfold pause. simpl. rewrite T. rewrite <- !app_assoc. simpl.
      by rewrite <- !app_assoc.
    + rewrite !insert_calls_app. simpl. by apply Forall_app.
    + intros c' Hc'. rewrite Hf by done. simpl. by apply F.
  - exists (pre ++ evs1). split; [|split].
    + simpl. rewrite T. rewrite <- !app_assoc. simpl. by rewrite app_nil_r.
    + by rewrite !insert_calls_app.
    + done.
  - exists (pre ++ evs1). split; [|split].
    + simpl. rewrite T. rewrite <- !app_assoc. simpl. by rewrite app_nil_r.
    + by rewrite !insert_calls_app.
    + done.
Qed.

(** ** The claims about the collection loop *)

Lemma filtered_tweet_projection query tweet :
  keys (filtered_tweet query tweet)
  = {[ "query"; "text"; "language"; "date"; "username"; "user_followers";
       "user_location"; "retweets"; "likes" ]} /\
  field (filtered_tweet query tweet) "query" = Some (PStr query) /\
  field (filtered_tweet query tweet) "text" = Some (text tweet) /\
  field (filtered_tweet query tweet) "language" = Some (lang tweet) /\
  field (filtered_tweet query tweet) "date" = Some (created_at tweet) /\
  field (filtered_tweet query tweet) "username" = Some (name (user tweet)) /\
  field (filtered_tweet query tweet) "user_followers" = Some (followers_count (user tweet)) /\
  field (filtered_tweet query tweet) "user_location" = Some (location (user tweet)) /\
  field (filtered_tweet query tweet) "retweets" = Some (retweet_count tweet) /\
  field (filtered_tweet query tweet) "likes" = Some (favorite_count tweet).
Proof.
  split; [|repeat split; reflexivity].
  unfold keys, filtered_tweet. rewrite dom_list_to_map_L. simpl.
  set_solver.
Qed.

(** C1: (1) in every call, whatever the environment, the fuel and the
    outcome, the calls of [insert_one] are, in the order fetched, one for
    each tweet that the calls of [next()] made returned, each with the
    document [filtered_tweet query tweet], and the collection gains those
    of them whose write the sink accepts; the number of calls of [next()]
    is at most the fuel, and is the fuel when the fuel runs out; (2)
    against an upstream that plays a script of tweets, rate-limit signals
    and write errors and then stops, and a sink whose only failure is a
    write error, the call returns having given every tweet of the script
    to [insert_one] exactly once; (3) the document has the nine keys query,
    text, language, date, username, user_followers, user_location, retweets
    and likes, the first holding the query string and the others the
    tweet's attributes unchanged. *)
Theorem collect_writes_each_fetched_tweet_once :
  (forall fuel api query since_date until_date coll limit w,
     let r := collect_and_store_tweets_from_query E fuel api query since_date until_date
                coll limit w in
     let tweets := length (cursors w) in
     let req := search_request api query since_date until_date (default 200 limit) in
     exists n evs,
       (n <= fuel)%nat /\
       (fst r = OutOfFuel -> n = fuel) /\
       cursors (snd r) !! tweets = Some {| request := req; calls := n |} /\
       trace (snd r) = trace w ++ evs /\
       insert_calls evs
       = map (fun tweet => (coll, filtered_tweet query tweet))
           (fetched (upstream E tweets req) 0 n) /\
       documents coll (snd r)
       = documents coll w
         ++ accepted E (inserts w) coll
              (map (filtered_tweet query) (fetched (upstream E tweets req) 0 n))) /\
  (forall fuel api query since_date until_date coll limit w script,
     plays (upstream E (length (cursors w))
              (search_request api query since_date until_date (default 200 limit)))
       0 script ->
     forallb goes_on script = true ->
     sink_write_errors_only E coll ->
     (length script < fuel)%nat ->
     let r := collect_and_store_tweets_from_query E fuel api query since_date until_date
                coll limit w in
     fst r = Returns tt /\
     exists evs,
       trace (snd r) = trace w ++ evs /\
       insert_calls evs
       = map (fun tweet => (coll, filtered_tweet query tweet)) (script_items script) /\
       documents coll (snd r)
       = documents coll w
         ++ accepted E (inserts w) coll (map (filtered_tweet query) (script_items script))) /\
  (forall query tweet,
     keys (filtered_tweet query tweet)
     = {[ "query"; "text"; "language"; "date"; "username"; "user_followers";
          "user_location"; "retweets"; "likes" ]} /\
     field (filtered_tweet query tweet) "query" = Some (PStr query) /\
     field (filtered_tweet query tweet) "text" = Some (text tweet) /\
     field (filtered_tweet query tweet) "language" = Some (lang tweet) /\
     field (filtered_tweet query tweet) "date" = Some (created_at tweet) /\
     field (filtered_tweet query tweet) "username" = Some (name (user tweet)) /\
     field (filtered_tweet query tweet) "user_followers"
     = Some (followers_count (user tweet)) /\
     field (filtered_tweet query tweet) "user_location" = Some (location (user tweet)) /\
     field (filtered_tweet query tweet) "retweets" = Some (retweet_count tweet) /\
     field (filtered_tweet query tweet) "likes" = Some (favorite_count tweet)).
Proof.
  split; [|split].
  - intros fuel api query since_date until_date coll limit w r tweets req.
    destruct (collect_run fuel api query since_date until_date coll limit w)
      as (n & evs & Hn & Hout & [Hcs _ Ht Hcalls _ Hdocs _ _ _ _ _ _]).
    fold r tweets req in Hcs, Ht, Hcalls, Hdocs, Hout.
    exists n, (Log INFO "collect_and_store_tweets_from_query >>>"
               :: CursorOpen tweets req :: evs ++ closing (fst r)).
    split; [done|]. split; [done|]. split; [|split; [|split]].
    + rewrite Hcs. subst tweets. by rewrite lookup_app_r, Nat.sub_diag.
    + done.
    + change (insert_calls (evs ++ closing (fst r)) =
              map (fun tweet => (coll, filtered_tweet query tweet))
                (fetched (upstream E tweets req) 0 n)).
      rewrite insert_calls_app, Hcalls, map_map.
      destruct (fst r); simpl; by rewrite app_nil_r.
    + done.
  - intros fuel api query since_date until_date coll limit w script Hp Hgo Hsink Hfuel r.
    destruct (collect_plays fuel api query since_date until_date coll limit w script
                Hp Hgo Hsink Hfuel) as (Hret & evs & [_ _ Ht Hcalls _ Hdocs _ _ _ _ _ _]).
    fold r in Hret, Ht, Hdocs.
    rewrite (plays_fetched _ _ _ Hp) in Hcalls, Hdocs.
    split; [done|].
    exists (Log INFO "collect_and_store_tweets_from_query >>>"
            :: CursorOpen (length (cursors w))
                 (search_request api query since_date until_date (default 200 limit))
            :: evs ++ closing (fst r)).
    split; [done|]. split; [|done].
    change (insert_calls (evs ++ closing (fst r)) =
            map (fun tweet => (coll, filtered_tweet query tweet)) (script_items script)).
    rewrite insert_calls_app, Hcalls, map_map. destruct (fst r); simpl; by rewrite app_nil_r.
  - apply filtered_tweet_projection.
Qed.

(** C6: the call opens exactly one cursor, as the second thing it does
    after its entry log line, with [q] the query followed by
    [" -filter:retweets"], the given [since] and [until], [result_type]
    ["mixed"] and [items] the given number of tweets, 200 when none is
    given; every later [next()] goes to that cursor. *)
Theorem collect_opens_cursor fuel api query since_date until_date coll limit w :
  let r := collect_and_store_tweets_from_query E fuel api query since_date until_date
             coll limit w in
  let req := {| session := api;
                q := query +:+ " -filter:retweets";
                since := since_date;
                until := until_date;
                result_type := "mixed";
                items := match limit with Some k => k | None => 200 end |} in
  exists n evs,
    trace (snd r)
    = trace w ++ Log INFO "collect_and_store_tweets_from_query >>>"
              :: CursorOpen (length (cursors w)) req :: evs /\
    opened evs = [] /\
    cursors (snd r) = cursors w ++ [{| request := req; calls := n |}] /\
    insert_calls evs
    = map (fun tweet => (coll, filtered_tweet query tweet))
        (fetched (upstream E (length (cursors w)) req) 0 n).
Proof.
  intros r req.
  destruct (collect_run fuel api query since_date until_date coll limit w)
    as (n & evs & _ & _ & [Hcs _ Ht Hcalls _ _ _ Hop _ _ _ _]).
  assert (Hreq : search_request api query since_date until_date (default 200 limit) = req)
    by (by destruct limit).
  rewrite Hreq in *. fold r in Hcs, Ht.
  exists n, (evs ++ closing (fst r)).
  split; [done|]. split; [|split; [done|]].
  - rewrite opened_app, Hop. by destruct (fst r).
  - rewrite insert_calls_app, Hcalls, map_map. destruct (fst r); simpl; by rewrite app_nil_r.
Qed.

(** A rate-limit signal: sleep [60 * bc], then go on with [bc + 1] on the
    same cursor. *)
Lemma while_true_rate_limited fuel query coll tweets bc w c reason :
  cursors w !! tweets = Some c ->
  upstream E tweets (request c) (calls c) = Throw (TweepError reason) ->
  while_true E (S fuel) query coll tweets bc w =
  while_true E fuel query coll tweets (bc + 1)
    (emit (Sleep (60 * bc))
       (emit (Log INFO ("Reached Tweet limits, waiting for "
                        +:+ pretty (60 * bc) +:+ " seconds"))
          (advance tweets c 1 w))).
Proof.
  intros Hc Hup. rewrite while_true_S, (try_statement_unfold _ _ _ _ _ _ Hc). cbv zeta.
  by rewrite Hup.
Qed.

(** Under a persistent outage the loop uses up any fuel. *)
Lemma while_true_outage fuel : forall query coll tweets bc w c,
  cursors w !! tweets = Some c ->
  outage (upstream E tweets (request c)) ->
  fst (while_true E fuel query coll tweets bc w) = OutOfFuel /\
  exists evs,
    trace (snd (while_true E fuel query coll tweets bc w)) = trace w ++ evs /\
    sleeps evs = backoffs bc fuel.
Proof.
  induction fuel as [|fuel IH]; intros query coll tweets bc w c Hc Hout.
  { split; [done|]. exists []. by rewrite app_nil_r. }
  destruct (Hout (calls c)) as [reason Hup].
  rewrite (while_true_rate_limited _ _ _ _ _ _ _ _ Hc Hup).
  pose proof (advance_lookup tweets c 1 w Hc) as Hc1.
  match goal with |- context [while_true E fuel _ _ _ _ ?w1] =>
    destruct (IH query coll tweets (bc + 1) w1 _ Hc1 Hout) as (R1 & evs & R2 & R3) end.
  split; [done|].
  eexists (_ :: _ :: evs). split.
  - rewrite R2. simpl. by rewrite <- !app_assoc.
  - rewrite backoffs_S. change (60 * bc :: sleeps evs = 60 * bc :: backoffs (bc + 1) fuel).
    by rewrite R3.
Qed.

Lemma backoffs_1 m : backoffs 1 m = map (fun k : nat => 60 * Z.of_nat k) (seq 1 m).
Proof.
  unfold backoffs. rewrite <- seq_shift, map_map. apply map_ext. intros k. lia.
Qed.

(** ** Write errors *)

Lemma script_items_Item ts : script_items (map Item ts) = ts.
Proof.
  induction ts as [|t ts IH]; [done|].
  change (t :: script_items (map Item ts) = t :: ts). by rewrite IH.
Qed.

Lemma goes_on_Item ts : forallb goes_on (map Item ts) = true.
Proof. by induction ts. Qed.

Lemma accepted_all k coll docs :
  (forall j doc, (k <= j)%nat -> sink E j coll doc = None) ->
  accepted E k coll docs = docs.
Proof.
  revert k. induction docs as [|doc docs IH]; intros k Hok; [done|].
  simpl. rewrite Hok by lia. rewrite IH; [done|]. intros j doc' Hj. apply Hok. lia.
Qed.

Lemma rejected_none k coll docs :
  (forall j doc, (k <= j)%nat -> sink E j coll doc = None) ->
  rejected E k coll docs = [].
Proof.
  revert k. induction docs as [|doc docs IH]; intros k Hok; [done|].
  simpl. rewrite Hok by lia. rewrite IH; [done|]. intros j doc' Hj. apply Hok. lia.
Qed.

Lemma accepted_fails_at coll detail docs : forall k0 k,
  (forall doc, sink E (k0 + k) coll doc = Some (PyMongoError detail)) ->
  (forall j doc, j <> (k0 + k)%nat -> sink E j coll doc = None) ->
  (k < length docs)%nat ->
  accepted E k0 coll docs = delete k docs /\
  rejected E k0 coll docs = [PyMongoError detail].
Proof.
  induction docs as [|doc docs IH]; intros k0 k Hfail Hok Hk; [simpl in Hk; lia|].
  destruct k as [|k]; simpl.
  - rewrite Nat.add_0_r in *. rewrite Hfail.
    rewrite accepted_all, rejected_none; [done| |]; intros j doc' Hj; apply Hok; lia.
  - rewrite Hok by lia.
    destruct (IH (S k0) k) as [-> ->]; [| |simpl in Hk; lia|done].
    + intros doc'. replace (S k0 + k)%nat with (k0 + S k)%nat by lia. apply Hfail.
    + intros j doc' Hj. apply Hok. lia.
Qed.

Lemma plays_Item_no_write_error stream ts :
  plays stream 0 (map Item ts) -> no_write_error stream 0 (S (length ts)).
Proof.
  intros [Hs Hend] j detail Hj Hthrow.
  rewrite length_map in Hend. simpl in Hend.
  destruct (decide (j = length ts)) as [->|Hne]; [congruence|].
  destruct (lookup_lt_is_Some_2 ts j) as [t Ht]; [lia|].
  specialize (Hs j (Item t)). simpl in Hs. rewrite Hs in Hthrow; [done|].
  by rewrite list_lookup_fmap, Ht.
Qed.

(** C2: (1) at a rate-limit signal the loop logs, sleeps 60 times the
    counter and goes on with the counter plus one on the same cursor, whose
    call count has advanced by the one failed call; (2) in every call of
    [collect_and_store_tweets_from_query], which opens one cursor and
    starts the counter at 1, the sleeps are 60, 120, .., 60 m for the m
    rate-limit signals among the calls of [next()] made, whatever lies
    between them; (3) under a persistent outage the call uses up any fuel,
    having slept 60, 120, .., 60 times the fuel: no cap on the retries;
    (4) against an upstream that raises the signal once and then yields the
    tweets [ts] and stops, and a sink that accepts every write, the call
    returns having slept 60 seconds once and written each tweet of [ts]
    once, in order. *)
Theorem backoff_is_linear_and_unbounded :
  (forall fuel query coll tweets bc w c reason,
     cursors w !! tweets = Some c ->
     upstream E tweets (request c) (calls c) = Throw (TweepError reason) ->
     while_true E (S fuel) query coll tweets bc w =
     while_true E fuel query coll tweets (bc + 1)
       (emit (Sleep (60 * bc))
          (emit (Log INFO ("Reached Tweet limits, waiting for "
                           +:+ pretty (60 * bc) +:+ " seconds"))
             (advance tweets c 1 w)))) /\
  (forall fuel api query since_date until_date coll limit w,
     sink_never_rate_limits E coll ->
     let r := collect_and_store_tweets_from_query E fuel api query since_date until_date
                coll limit w in
     let req := search_request api query since_date until_date (default 200 limit) in
     exists n evs,
       (n <= fuel)%nat /\
       cursors (snd r) = cursors w ++ [{| request := req; calls := n |}] /\
       trace (snd r) = trace w ++ evs /\
       opened evs = [req] /\
       sleeps evs
       = map (fun k : nat => 60 * Z.of_nat k)
           (seq 1 (rate_limits (upstream E (length (cursors w)) req) 0 n))) /\
  (forall fuel api query since_date until_date coll limit w,
     outage (upstream E (length (cursors w))
               (search_request api query since_date until_date (default 200 limit))) ->
     let r := collect_and_store_tweets_from_query E fuel api query since_date until_date
                coll limit w in
     fst r = OutOfFuel /\
     exists evs,
       trace (snd r) = trace w ++ evs /\
       sleeps evs = map (fun k : nat => 60 * Z.of_nat k) (seq 1 fuel)) /\
  (forall fuel api query since_date until_date coll limit w reason ts,
     plays (upstream E (length (cursors w))
              (search_request api query since_date until_date (default 200 limit)))
       0 (Throw (TweepError reason) :: map Item ts) ->
     (forall j doc, sink E j coll doc = None) ->
     (S (length ts) < fuel)%nat ->
     let r := collect_and_store_tweets_from_query E fuel api query since_date until_date
                coll limit w in
     fst r = Returns tt /\
     exists evs,
       trace (snd r) = trace w ++ evs /\
       sleeps evs = [60] /\
       insert_calls evs = map (fun tweet => (coll, filtered_tweet query tweet)) ts /\
       documents coll (snd r) = documents coll w ++ map (filtered_tweet query) ts).
Proof.
  split; [|split; [|split]].
  - intros. by eapply while_true_rate_limited.
  - intros fuel api query since_date until_date coll limit w Hquiet r req.
    destruct (collect_run fuel api query since_date until_date coll limit w)
      as (n & evs & Hn & _ & [Hcs _ Ht _ _ _ _ Hop _ _ Hsl _]).
    fold r req in Hcs, Ht, Hsl.
    exists n, (Log INFO "collect_and_store_tweets_from_query >>>"
               :: CursorOpen (length (cursors w)) req :: evs ++ closing (fst r)).
    split; [done|]. split; [done|]. split; [done|]. split.
    + change (req :: opened (evs ++ closing (fst r)) = [req]).
      rewrite opened_app, Hop. by destruct (fst r).
    + change (sleeps (evs ++ closing (fst r)) =
              map (fun k : nat => 60 * Z.of_nat k)
                (seq 1 (rate_limits (upstream E (length (cursors w)) req) 0 n))).
      rewrite sleeps_app, Hsl, backoffs_1 by done. destruct (fst r); simpl; by rewrite app_nil_r.
  - intros fuel api query since_date until_date coll limit w Hout r. subst r.
    rewrite collect_unfold. cbv zeta.
    set (req := search_request api query since_date until_date (default 200 limit)) in *.
    set (tweets := length (cursors w)) in *.
    set (w0 := emit (CursorOpen tweets req) _).
    assert (Hc : cursors w0 !! tweets = Some {| request := req; calls := 0 |}).
    { subst w0 tweets. simpl. by rewrite lookup_app_r, Nat.sub_diag. }
    destruct (while_true_outage fuel query coll tweets 1 w0 _ Hc Hout)
      as (R1 & evs & R2 & R3).
    destruct (while_true E fuel query coll tweets 1 w0) as [[[]|e|] w']; simpl in R1; try done.
    split; [done|]. simpl in *.
    exists (Log INFO "collect_and_store_tweets_from_query >>>"
            :: CursorOpen tweets req :: evs).
    split.
    + rewrite R2. subst w0. simpl. by rewrite <- !app_assoc.
    + change (sleeps evs = map (fun k : nat => 60 * Z.of_nat k) (seq 1 fuel)).
      by rewrite R3, backoffs_1.
  - intros fuel api query since_date until_date coll limit w reason ts Hp Hok Hfuel r.
    assert (Hsink : sink_write_errors_only E coll).
    { intros j doc e He. by rewrite Hok in He. }
    destruct (collect_plays fuel api query since_date until_date coll limit w
                (Throw (TweepError reason) :: map Item ts))
      as (Hret & evs & [_ _ Ht Hcalls _ Hdocs _ _ _ _ Hsl _]);
      [done|apply goes_on_Item|done|by simpl; rewrite length_map|].
    fold r in Hret, Ht, Hdocs.
    rewrite (plays_fetched _ _ _ Hp) in Hcalls, Hdocs.
    rewrite (plays_rate_limits _ _ _ Hp) in Hsl.
    change (script_items (Throw (TweepError reason) :: map Item ts))
      with (script_items (map Item ts)) in Hcalls, Hdocs.
    rewrite script_items_Item in Hcalls, Hdocs.
    assert (Hone : script_rate_limits (Throw (TweepError reason) :: map Item ts) = 1%nat).
    { clear. unfold script_rate_limits. simpl. f_equal.
      induction ts as [|t ts IH]; [done|apply IH]. }
    rewrite Hone in Hsl.
    split; [done|].
    exists (Log INFO "collect_and_store_tweets_from_query >>>"
            :: CursorOpen (length (cursors w))
                 (search_request api query since_date until_date (default 200 limit))
            :: evs ++ closing (fst r)).
    rewrite Hret in *. split; [done|]. split; [|split].
    + change (sleeps (evs ++ closing (Returns tt : outcome unit)) = [60]).
      rewrite sleeps_app, Hsl by (by apply write_errors_only_quiet). done.
    + change (insert_calls (evs ++ closing (Returns tt : outcome unit)) =
              map (fun tweet => (coll, filtered_tweet query tweet)) ts).
      rewrite insert_calls_app, Hcalls, map_map. simpl. by rewrite app_nil_r.
    + rewrite Hdocs, accepted_all; [done|]. intros; apply Hok.
Qed.

(** C3: against an upstream that yields the tweets [ts] and then stops
    and a sink that raises [PyMongoError] on the write of tweet number [k]
    and accepts every other write, the call returns normally; it has given
    every tweet of [ts] to [insert_one] exactly once, the failed one
    included and not a second time; it has logged the one error; and the
    collection has gained the documents of all tweets but number [k]. *)
Theorem write_error_drops_only_that_tweet fuel api query since_date until_date
    coll limit w ts k detail :
  plays (upstream E (length (cursors w))
           (search_request api query since_date until_date (default 200 limit)))
    0 (map Item ts) ->
  (k < length ts)%nat ->
  (forall doc, sink E (inserts w + k) coll doc = Some (PyMongoError detail)) ->
  (forall j doc, j <> (inserts w + k)%nat -> sink E j coll doc = None) ->
  (length ts < fuel)%nat ->
  let r := collect_and_store_tweets_from_query E fuel api query since_date until_date
             coll limit w in
  fst r = Returns tt /\
  exists evs,
    trace (snd r) = trace w ++ evs /\
    insert_calls evs = map (fun tweet => (coll, filtered_tweet query tweet)) ts /\
    error_logs evs = [("Error on writing on MongoDB", PyMongoError detail)] /\
    documents coll (snd r)
    = documents coll w ++ map (filtered_tweet query) (delete k ts).
Proof.
  intros Hp Hk Hfail Hok Hfuel r.
  assert (Hsink : sink_write_errors_only E coll).
  { intros j doc e He. destruct (decide (j = (inserts w + k)%nat)) as [->|Hne].
    - rewrite Hfail in He. by injection He as <-.
    - by rewrite Hok in He. }
  destruct (collect_plays fuel api query since_date until_date coll limit w (map Item ts))
    as (Hret & evs & [_ _ Ht Hcalls _ Hdocs _ _ _ _ _ Herr]);
    [done|apply goes_on_Item|done|by rewrite length_map|].
  fold r in Hret, Ht, Hdocs.
  rewrite (plays_fetched _ _ _ Hp), script_items_Item in Hcalls, Hdocs, Herr.
  rewrite length_map in Herr.
  destruct (accepted_fails_at coll detail (map (filtered_tweet query) ts) (inserts w) k)
    as [Hacc Hrej]; [done|done|by rewrite length_map|].
  split; [done|].
  exists (Log INFO "collect_and_store_tweets_from_query >>>"
          :: CursorOpen (length (cursors w))
               (search_request api query since_date until_date (default 200 limit))
          :: evs ++ closing (fst r)).
  rewrite Hret in *. split; [done|]. split; [|split].
  - change (insert_calls (evs ++ closing (Returns tt : outcome unit)) =
            map (fun tweet => (coll, filtered_tweet query tweet)) ts).
    rewrite insert_calls_app, Hcalls, map_map. simpl. by rewrite app_nil_r.
  - change (error_logs (evs ++ closing (Returns tt : outcome unit)) =
            [("Error on writing on MongoDB", PyMongoError detail)]).
    unfold error_logs at 1. rewrite omap_app. fold (error_logs evs).
    rewrite Herr, Hrej by (by apply plays_Item_no_write_error). done.
  - rewrite Hdocs, Hacc. f_equal. clear. revert k.
    induction ts as [|t ts IH]; intros [|k]; simpl; try done. by rewrite IH.
Qed.

(** ** The claims about the multi-query driver *)



(** C7: (1) an exception of another class than the three handled ones,
    raised by [next()] at any pass of the loop, leaves the loop at once
    with nothing logged; (2) so does one raised by [insert_one]; (3) the
    call has no handler of its own: what the loop raises, the call
    raises, in the same world; (4) and nothing of the three handled
    classes ever leaves the call; (5) in the driver, once the queries
    [before] are done and the call for [query] raises [e], the run ends
    with [e] in the world where the call raised: the cursors opened are
    those of [before] and [query], none of [after]. *)
Theorem unclassified_exception_aborts_run :
  (forall fuel query coll tweets bc w c e,
     cursors w !! tweets = Some c ->
     upstream E tweets (request c) (calls c) = Throw e ->
     handled e = false ->
     while_true E (S fuel) query coll tweets bc w = (Raises e, advance tweets c 1 w)) /\
  (forall fuel query coll tweets bc w c tweet e,
     cursors w !! tweets = Some c ->
     upstream E tweets (request c) (calls c) = Item tweet ->
     sink E (inserts w) coll (filtered_tweet query tweet) = Some e ->
     handled e = false ->
     fst (while_true E (S fuel) query coll tweets bc w) = Raises e /\
     trace (snd (while_true E (S fuel) query coll tweets bc w))
     = trace w ++ [Log INFO ("Query: " +:+ query +:+ ", Tweet_date: "
                             +:+ format_arg E (created_at tweet));
                   InsertOne coll (filtered_tweet query tweet)]) /\
  (forall fuel api query since_date until_date coll limit w e,
     let w0 := emit (CursorOpen (length (cursors w))
                       (search_request api query since_date until_date (default 200 limit)))
                 (set_cursors
                    (fun cs => cs ++ [{| request := search_request api query since_date
                                                      until_date (default 200 limit);
                                         calls := 0 |}])
                    (emit (Log INFO "collect_and_store_tweets_from_query >>>") w)) in
     fst (while_true E fuel query coll (length (cursors w)) 1 w0) = Raises e ->
     collect_and_store_tweets_from_query E fuel api query since_date until_date coll limit w
     = (Raises e, snd (while_true E fuel query coll (length (cursors w)) 1 w0))) /\
  (forall fuel api query since_date until_date coll limit w e,
     fst (collect_and_store_tweets_from_query E fuel api query since_date until_date
            coll limit w) = Raises e ->
     handled e = false) /\
  (forall fuel api before query after since_date until_date coll w e,
     let w0 := emit (Log INFO "download_and_store_tweets_on_mongodb >>>") w in
     fst (for_query E fuel api before since_date until_date coll w0) = Returns tt ->
     let w1 := emit (Log INFO ("Working on: " +:+ query))
                 (snd (for_query E fuel api before since_date until_date coll w0)) in
     let r := collect_and_store_tweets_from_query E fuel api query since_date until_date
                coll None w1 in
     fst r = Raises e ->
     download_and_store_tweets_on_mongodb E fuel api (before ++ query :: after)
       since_date until_date coll w = (Raises e, snd r) /\
     exists evs,
       trace (snd r) = trace w ++ evs /\
       opened evs
       = map (fun query => search_request api query since_date until_date 200)
           (before ++ [query])).
Proof.
  split; [|split; [|split; [|split]]].
  - intros fuel query coll tweets bc w c e Hc Hup He.
    rewrite while_true_S, (try_statement_unfold _ _ _ _ _ _ Hc). cbv zeta.
    rewrite Hup. by destruct e.
  - intros fuel query coll tweets bc w c tweet e Hc Hup Hsink He.
    rewrite while_true_S, (try_statement_unfold _ _ _ _ _ _ Hc). cbv zeta.
    rewrite Hup, Hsink. destruct e; try done; simpl; by rewrite <- ?app_assoc.
  - intros fuel api query since_date until_date coll limit w e w0 Hr.
    rewrite collect_unfold. cbv zeta. fold w0.
    destruct (while_true E fuel query coll (length (cursors w)) 1 w0) as [[[]|e'|] w'];
      simpl in Hr; try done. by injection Hr as ->.
  - intros fuel api query since_date until_date coll limit w e Hr.
    destruct (collect_run fuel api query since_date until_date coll limit w)
      as (n & evs & _ & _ & Hrun).
    by apply (run_raises _ _ _ _ _ _ _ _ _ Hrun).
  - intros fuel api before query after since_date until_date coll w e w0 Hbefore w1 r Hr.
    destruct (for_query_returns fuel api since_date until_date coll before w0 Hbefore)
      as (evs0 & rs & Ht0 & _ & _ & _ & Hop0 & _).
    destruct (collect_run fuel api query since_date until_date coll None w1)
      as (n & evs & _ & _ & [_ _ Ht _ _ _ _ Hop _ _ _ _]).
    fold r in Ht. rewrite Hr in Ht. simpl in Ht.
    split.
    + rewrite download_unfold, for_query_app. fold w0.
      destruct (for_query E fuel api before since_date until_date coll w0)
        as [[[]|e'|] w'] eqn:Hfq; simpl in Hbefore; try done.
      rewrite for_query_cons. simpl in w1. fold w1. fold r.
      destruct r as [[[]|e'|] w2]; simpl in Hr; try done. by injection Hr as ->.
    + exists ([Log INFO "download_and_store_tweets_on_mongodb >>>"] ++ evs0
              ++ [Log INFO ("Working on: " +:+ query);
                  Log INFO "collect_and_store_tweets_from_query >>>";
                  CursorOpen (length (cursors w1))
                    (search_request api query since_date until_date 200)] ++ evs).
      split.
      * rewrite Ht. subst w1. simpl. rewrite Ht0. subst w0. simpl.
        rewrite ?app_nil_r, <- ?app_assoc. simpl. by rewrite <- ?app_assoc.
      * rewrite !opened_app, Hop0, Hop, map_app. simpl. by rewrite ?app_nil_r.
Qed.

(** ** The credential loader *)

Lemma load_valid path ck cs tok sec w :
  holds_credentials E path ck cs tok sec ->
  load_twitter_credentials E path w
  = (Returns (PStr ck, PStr cs, PStr tok, PStr sec),
     emit (Log DEBUG (credentials_line ck cs tok sec)) w).
Proof.
  intros (content & top & twitter & Hf & Hj & Ht & H1 & H2 & H3 & H4).
  unfold load_twitter_credentials, mbind, Py_bind, read_file, loads, getitem.
  by rewrite Hf, Hj, Ht, H1, H2, H3, H4.
Qed.

(** The loader either raises, leaving the world as it was, or returns
    after one debug line. *)
Lemma load_cases path w :
  (exists e, load_twitter_credentials E path w = (Raises e, w)) \/
  (exists v msg, load_twitter_credentials E path w = (Returns v, emit (Log DEBUG msg) w)).
Proof.
  unfold load_twitter_credentials, mbind, Py_bind, read_file, loads, getitem, log.
  destruct (files E !! path) as [content|]; [|by left; eexists].
  destruct (json_loads E content) as [api_twitter|]; [|by left; eexists].
  destruct api_twitter as [| | | | | |top]; try (by left; eexists).
  destruct (top !! "Twitter") as [twitter|]; [|by left; eexists].
  destruct twitter as [| | | | | |twitter]; try (by left; eexists).
  destruct (twitter !! "consumer_key"); [|by left; eexists].
  destruct (twitter !! "consumer_secret"); [|by left; eexists].
  destruct (twitter !! "access_token"); [|by left; eexists].
  destruct (twitter !! "access_secret"); [|by left; eexists].
  right. by do 2 eexists.
Qed.

(** C5: (1) for a valid credentials file the loader returns the four
    strings in the order consumer key, consumer secret, access token,
    access secret, read from the object under the top-level key
    ["Twitter"]; (2) a missing file, (3) an unparsable file, (4) a
    missing top-level key and (5) a missing field each raise to the
    caller (FileNotFoundError, JSONDecodeError, KeyError) and leave the
    world as it was. *)
Theorem load_twitter_credentials_returns_or_raises :
  (forall path ck cs tok sec w,
     holds_credentials E path ck cs tok sec ->
     fst (load_twitter_credentials E path w)
     = Returns (PStr ck, PStr cs, PStr tok, PStr sec)) /\
  (forall path w,
     files E !! path = None ->
     load_twitter_credentials E path w = (Raises (FileNotFoundError path), w)) /\
  (forall path content w,
     files E !! path = Some content ->
     json_loads E content = None ->
     load_twitter_credentials E path w = (Raises JSONDecodeError, w)) /\
  (forall path content top w,
     files E !! path = Some content ->
     json_loads E content = Some (PDict top) ->
     top !! "Twitter" = None ->
     load_twitter_credentials E path w = (Raises (KeyError "Twitter"), w)) /\
  (forall path content top twitter key w,
     files E !! path = Some content ->
     json_loads E content = Some (PDict top) ->
     top !! "Twitter" = Some (PDict twitter) ->
     key ∈ ["consumer_key"; "consumer_secret"; "access_token"; "access_secret"] ->
     twitter !! key = None ->
     exists missing,
       twitter !! missing = None /\
       load_twitter_credentials E path w = (Raises (KeyError missing), w)).
Proof.
  split; [|split; [|split; [|split]]].
  - intros path ck cs tok sec w H. by rewrite (load_valid _ _ _ _ _ _ H).
  - intros path w Hf.
    unfold load_twitter_credentials, mbind, Py_bind, read_file. by rewrite Hf.
  - intros path content w Hf Hj.
    unfold load_twitter_credentials, mbind, Py_bind, read_file, loads. by rewrite Hf, Hj.
  - intros path content top w Hf Hj Ht.
    unfold load_twitter_credentials, mbind, Py_bind, read_file, loads, getitem.
    by rewrite Hf, Hj, Ht.
  - intros path content top twitter key w Hf Hj Ht Hkey Hnone.
    unfold load_twitter_credentials, mbind, Py_bind, read_file, loads, getitem, log.
    rewrite Hf, Hj, Ht.
    destruct (twitter !! "consumer_key") eqn:H1; [|by eexists].
    destruct (twitter !! "consumer_secret") eqn:H2; [|by eexists].
    destruct (twitter !! "access_token") eqn:H3; [|by eexists].
    destruct (twitter !! "access_secret") eqn:H4; [|by eexists].
    exfalso. repeat (apply elem_of_cons in Hkey as [->|Hkey]; [congruence|]).
    by apply elem_of_nil in Hkey.
Qed.

Lemma append_length (s1 s2 : string) :
  String.length (s1 +:+ s2) = (String.length s1 + String.length s2)%nat.
Proof.
  induction s1 as [|a s1 IH]; [done|].
  change (S (String.length (s1 +:+ s2)) = S (String.length s1 + String.length s2)).
  by rewrite IH.
Qed.

Lemma append_cancel_r (r s1 s2 : string) : s1 +:+ r = s2 +:+ r -> s1 = s2.
Proof.
  revert s2. induction s1 as [|a s1 IH]; intros [|b s2] H; [done| | |].
  - change (r = String b (s2 +:+ r)) in H.
    apply (f_equal String.length) in H.
    change (String.length r = S (String.length (s2 +:+ r))) in H.
    rewrite append_length in H. lia.
  - change (String a (s1 +:+ r) = r) in H.
    apply (f_equal String.length) in H.
    change (S (String.length (s1 +:+ r)) = String.length r) in H.
    rewrite append_length in H. lia.
  - change (String a (s1 +:+ r) = String b (s2 +:+ r)) in H.
    injection H as -> H. by rewrite (IH _ H).
Qed.

Lemma append_cancel_l (p s1 s2 : string) : p +:+ s1 = p +:+ s2 -> s1 = s2.
Proof. apply String.app_inj. Qed.

Lemma credentials_line_differs s1 s2 :
  differ_in_one_secret s1 s2 ->
  (let '(ck, cs, tok, sec) := s1 in credentials_line ck cs tok sec)
  <> (let '(ck, cs, tok, sec) := s2 in credentials_line ck cs tok sec).
Proof.
  destruct s1 as [[[ck1 cs1] tok1] sec1], s2 as [[[ck2 cs2] tok2] sec2].
  unfold credentials_line.
  intros [(Hne & -> & -> & ->)|[(-> & Hne & -> & ->)|[(-> & -> & Hne & ->)|(-> & -> & -> & Hne)]]] H;
    apply Hne.
  - by apply append_cancel_r in H.
  - apply append_cancel_l, append_cancel_l in H. by apply append_cancel_r in H.
  - do 4 apply append_cancel_l in H. by apply append_cancel_r in H.
  - by do 6 apply append_cancel_l in H.
Qed.

(** C8: (1) for a valid credentials file the loader's one effect is a
    debug log line made of the four secrets, joined by ["-"]; (2) so the
    log depends on the secrets: two valid files whose secrets differ in any
    one of the four give different debug lines from the same world. *)
Theorem load_twitter_credentials_logs_secrets :
  (forall path ck cs tok sec w,
     holds_credentials E path ck cs tok sec ->
     trace (snd (load_twitter_credentials E path w))
     = trace w ++ [Log DEBUG (ck +:+ "-" +:+ cs +:+ "-" +:+ tok +:+ "-" +:+ sec)]) /\
  (forall path1 path2 ck1 cs1 tok1 sec1 ck2 cs2 tok2 sec2 w,
     holds_credentials E path1 ck1 cs1 tok1 sec1 ->
     holds_credentials E path2 ck2 cs2 tok2 sec2 ->
     differ_in_one_secret (ck1, cs1, tok1, sec1) (ck2, cs2, tok2, sec2) ->
     debug_logs (trace (snd (load_twitter_credentials E path1 w)))
     <> debug_logs (trace (snd (load_twitter_credentials E path2 w)))).
Proof.
  split.
  - intros path ck cs tok sec w H. by rewrite (load_valid _ _ _ _ _ _ H).
  - intros path1 path2 ck1 cs1 tok1 sec1 ck2 cs2 tok2 sec2 w H1 H2 Hd.
    rewrite (load_valid _ _ _ _ _ _ H1), (load_valid _ _ _ _ _ _ H2). simpl.
    unfold debug_logs. rewrite !omap_app. simpl. intros Heq.
    apply app_inv_head in Heq. injection Heq as Heq.
    by apply (credentials_line_differs _ _ Hd).
Qed.

(** ** The main function *)

Lemma main_unfold fuel keys_filename qs since_date until_date mongo_ip mongo_port w :
  download_and_store_tweets_on_default_mongodb_instance E fuel keys_filename qs
    since_date until_date mongo_ip mongo_port w =
  match load_twitter_credentials E keys_filename
          (emit (Log INFO "download_and_store_tweets_on_default_mongodb_instance >>>") w)
  with
  | (Returns (ck, cs, tok, sec), w1) =>
      match auth_error E ck cs with
      | Some e => (Raises e, emit (Log INFO "twitter_api_setup >>>") w1)
      | None =>
          let w2 := emit (Log INFO "twitter_api_setup <<<")
                      (emit (Log INFO "twitter_api_setup >>>") w1) in
          match client_error E mongo_ip mongo_port with
          | Some e => (Raises e, w2)
          | None =>
              match download_and_store_tweets_on_mongodb E fuel
                      {| consumer_key := ck; consumer_secret := cs;
                         access_token := tok; access_secret := sec;
                         wait_on_rate_limit := true; wait_on_rate_limit_notify := true;
                         retry_count := 1000; retry_delay := 60 |}
                      qs since_date until_date
                      (db_getattr (client_getattr (client_at mongo_ip mongo_port)
                                     "dm_project") "twitter")
                      w2
              with
              | (Returns _, w3) =>
                  (Returns tt,
                   emit (Log INFO
                           "download_and_store_tweets_on_default_mongodb_instance <<<") w3)
              | r => r
              end
          end
      end
  | (Raises e, w1) => (Raises e, w1)
  | (OutOfFuel, w1) => (OutOfFuel, w1)
  end.
Proof.
  unfold download_and_store_tweets_on_default_mongodb_instance, mbind, Py_bind,
    twitter_api_setup, OAuthHandler, MongoClient, log.
  destruct (load_twitter_credentials E keys_filename _) as [[[[[ck cs] tok] sec]|e|] w1];
    try reflexivity.
  simpl. destruct (auth_error E ck cs); [reflexivity|]. simpl.
  destruct (client_error E mongo_ip mongo_port); reflexivity.
Qed.

(** The driver on the happy path: the calls of [insert_one]. *)
Lemma for_query_writes fuel api since_date until_date coll qs : forall w tss,
  (forall i query, qs !! i = Some query ->
     plays (upstream E (length (cursors w) + i)
              (search_request api query since_date until_date 200))
       0 (map Item (tss i))) ->
  (forall j doc, sink E j coll doc = None) ->
  (forall i, (i < length qs)%nat -> (length (tss i) < fuel)%nat) ->
  fst (for_query E fuel api qs since_date until_date coll w) = Returns tt /\
  exists evs,
    trace (snd (for_query E fuel api qs since_date until_date coll w)) = trace w ++ evs /\
    insert_calls evs
    = concat (imap (fun i query =>
                      map (fun tweet => (coll, filtered_tweet query tweet)) (tss i)) qs).
Proof.
  induction qs as [|query qs IH]; intros w tss Hp Hsink Hfuel.
  { split; [done|]. exists []. simpl. by rewrite app_nil_r. }
  rewrite for_query_cons.
  set (wl := emit (Log INFO ("Working on: " +:+ query)) w).
  assert (Hp0 : plays (upstream E (length (cursors wl))
                         (search_request api query since_date until_date (default 200 None)))
                  0 (map Item (tss 0%nat))).
  { specialize (Hp 0%nat query eq_refl). by rewrite Nat.add_0_r in Hp. }
  destruct (collect_plays fuel api query since_date until_date coll None wl
              (map Item (tss 0%nat)))
    as (R1 & evs1 & [Hcs _ Ht Hcalls _ _ _ _ _ _ _ _]).
  { done. }
  { apply goes_on_Item. }
  { intros j doc e He. by rewrite Hsink in He. }
  { rewrite length_map. apply Hfuel. simpl. lia. }
  rewrite (plays_fetched _ _ _ Hp0), script_items_Item in Hcalls.
  destruct (collect_and_store_tweets_from_query E fuel api query since_date until_date
              coll None wl) as [[[]|e|] w1]; simpl in R1, Hcs, Ht; try done.
  destruct (IH (pause E w1) (fun i => tss (S i))) as (Q1 & evs & Q2 & Q3).
  { intros i q Hq. specialize (Hp (S i) q Hq).
    change (cursors (pause E w1)) with (cursors w1). rewrite Hcs, length_app. simpl.
    by rewrite <- Nat.add_assoc. }
  { done. }
  { intros i Hi. apply Hfuel. simpl. lia. }
  split; [done|].
  exists ([Log INFO ("Working on: " +:+ query);
           Log INFO "collect_and_store_tweets_from_query >>>";
           CursorOpen (length (cursors wl))
             (search_request api query since_date until_date (default 200 None))]
          ++ evs1 ++ [Log INFO "collect_and_store_tweets_from_query <<<";
                      RandInt 30 120 (30 + entropy E (draws w1) `mod` 91);
                      Sleep (30 + entropy E (draws w1) `mod` 91)] ++ evs).
  split.
  - rewrite Q2. unfold pause. simpl. rewrite Ht. subst wl. simpl.
    rewrite <- ?app_assoc. simpl. by rewrite <- ?app_assoc.
  - rewrite !insert_calls_app, Hcalls, Q3, map_map. done.
Qed.

(** C9: (1) whatever its arguments and its outcome, every document the
    main function gives to [insert_one] goes to the collection ["twitter"]
    of the database ["dm_project"] on the given host and port, and no
    other collection changes; these names are not the ones of its
    docstring (db ["twitter"], collection ["game_tweets"]); (2) and it
    does write there: with a valid credentials file, a session and a client
    whose construction does not raise, cursors that yield the tweets
    [tss i] for the i-th query and stop, and a sink that accepts the
    writes, it returns having given to [insert_one], on that collection and
    in list order, the document of every tweet of every query. *)
Theorem default_instance_writes_to_dm_project_twitter :
  (forall fuel keys_filename qs since_date until_date mongo_ip mongo_port w,
     let r := download_and_store_tweets_on_default_mongodb_instance E fuel keys_filename qs
                since_date until_date mongo_ip mongo_port w in
     let target := {| coll_db := {| db_client := {| client_host := mongo_ip;
                                                    client_port := mongo_port |};
                                    db_name := "dm_project" |};
                      coll_name := "twitter" |} in
     (exists evs,
        trace (snd r) = trace w ++ evs /\
        Forall (fun call => fst call = target) (insert_calls evs)) /\
     (forall c', c' <> target -> mongo (snd r) !! c' = mongo w !! c') /\
     db_name (coll_db target) <> docstring_db /\
     coll_name target <> docstring_collection) /\
  (forall fuel keys_filename qs since_date until_date mongo_ip mongo_port w
          ck cs tok sec tss,
     let target := {| coll_db := {| db_client := {| client_host := mongo_ip;
                                                    client_port := mongo_port |};
                                    db_name := "dm_project" |};
                      coll_name := "twitter" |} in
     holds_credentials E keys_filename ck cs tok sec ->
     auth_error E (PStr ck) (PStr cs) = None ->
     client_error E mongo_ip mongo_port = None ->
     (forall i query, qs !! i = Some query ->
        plays (upstream E (length (cursors w) + i)
                 (search_request (session_of (PStr ck) (PStr cs) (PStr tok) (PStr sec))
                    query since_date until_date 200))
          0 (map Item (tss i))) ->
     (forall j doc, sink E j target doc = None) ->
     (forall i, (i < length qs)%nat -> (length (tss i) < fuel)%nat) ->
     let r := download_and_store_tweets_on_default_mongodb_instance E fuel keys_filename qs
                since_date until_date mongo_ip mongo_port w in
     fst r = Returns tt /\
     exists evs,
       trace (snd r) = trace w ++ evs /\
       insert_calls evs
       = concat (imap (fun i query =>
                         map (fun tweet => (target, filtered_tweet query tweet)) (tss i))
                   qs)).
Proof.
  split.
  - intros fuel keys_filename qs since_date until_date mongo_ip mongo_port w r target.
    split; [|split; [|done]].
    + subst r. rewrite main_unfold.
      set (w0 := emit (Log INFO "download_and_store_tweets_on_default_mongodb_instance >>>")
                   w).
      destruct (load_cases keys_filename w0) as [[e ->]|([[[ck cs] tok] sec] & msg & ->)].
      { exists [Log INFO "download_and_store_tweets_on_default_mongodb_instance >>>"].
        by split. }
      destruct (auth_error E ck cs) as [e|].
      { exists [Log INFO "download_and_store_tweets_on_default_mongodb_instance >>>";
                Log DEBUG msg; Log INFO "twitter_api_setup >>>"].
        split; [simpl; by rewrite <- ?app_assoc|done]. }
      cbv zeta. destruct (client_error E mongo_ip mongo_port) as [e|].
      { exists [Log INFO "download_and_store_tweets_on_default_mongodb_instance >>>";
                Log DEBUG msg; Log INFO "twitter_api_setup >>>";
                Log INFO "twitter_api_setup <<<"].
        split; [simpl; by rewrite <- ?app_assoc|done]. }
      rewrite download_unfold.
      match goal with |- context [for_query E fuel ?a qs since_date until_date ?c ?w1] =>
        destruct (for_query_frame fuel a since_date until_date c qs w1)
          as (evs & Ht & Hc & _);
        destruct (for_query E fuel a qs since_date until_date c w1) as [[[]|e|] w2] end;
        simpl in Ht.
      * exists ([Log INFO "download_and_store_tweets_on_default_mongodb_instance >>>";
                 Log DEBUG msg; Log INFO "twitter_api_setup >>>";
                 Log INFO "twitter_api_setup <<<";
                 Log INFO "download_and_store_tweets_on_mongodb >>>"] ++ evs
                ++ [Log INFO "download_and_store_tweets_on_mongodb <<<";
                    Log INFO "download_and_store_tweets_on_default_mongodb_instance <<<"]).
        split.
        -- simpl. rewrite Ht. rewrite <- ?app_assoc. simpl. by rewrite <- ?app_assoc.
        -- rewrite !insert_calls_app. simpl. by rewrite app_nil_r.
      * exists ([Log INFO "download_and_store_tweets_on_default_mongodb_instance >>>";
                 Log DEBUG msg; Log INFO "twitter_api_setup >>>";
                 Log INFO "twitter_api_setup <<<";
                 Log INFO "download_and_store_tweets_on_mongodb >>>"] ++ evs).
        split; [|by rewrite !insert_calls_app].
        simpl. rewrite Ht. rewrite <- ?app_assoc. simpl. by rewrite <- ?app_assoc.
      * exists ([Log INFO "download_and_store_tweets_on_default_mongodb_instance >>>";
                 Log DEBUG msg; Log INFO "twitter_api_setup >>>";
                 Log INFO "twitter_api_setup <<<";
                 Log INFO "download_and_store_tweets_on_mongodb >>>"] ++ evs).
        split; [|by rewrite !insert_calls_app].
        simpl. rewrite Ht. rewrite <- ?app_assoc. simpl. by rewrite <- ?app_assoc.
    + intros c' Hc'. subst r. rewrite main_unfold.
      set (w0 := emit (Log INFO "download_and_store_tweets_on_default_mongodb_instance >>>")
                   w).
      destruct (load_cases keys_filename w0) as [[e ->]|([[[ck cs] tok] sec] & msg & ->)];
        [done|].
      destruct (auth_error E ck cs) as [e|]; [done|].
      cbv zeta. destruct (client_error E mongo_ip mongo_port) as [e|]; [done|].
      rewrite download_unfold.
      match goal with |- context [for_query E fuel ?a qs since_date until_date ?c ?w1] =>
        destruct (for_query_frame fuel a since_date until_date c qs w1)
          as (evs & _ & _ & Hf);
        destruct (for_query E fuel a qs since_date until_date c w1) as [[[]|e|] w2] end;
        simpl in *; by rewrite Hf.
  - intros fuel keys_filename qs since_date until_date mongo_ip mongo_port w
      ck cs tok sec tss target Hvalid Hauth Hclient Hp Hsink Hfuel r.
    subst r. rewrite main_unfold.
    set (w0 := emit (Log INFO "download_and_store_tweets_on_default_mongodb_instance >>>") w).
    rewrite (load_valid _ _ _ _ _ _ Hvalid), Hauth. cbv zeta. rewrite Hclient.
    rewrite download_unfold.
    match goal with |- context [for_query E fuel ?a qs since_date until_date ?c ?w1] =>
      destruct (for_query_writes fuel a since_date until_date c qs w1 tss Hp Hsink Hfuel)
        as (R1 & evs & R2 & R3);
      destruct (for_query E fuel a qs since_date until_date c w1) as [[[]|e|] w2] end;
      simpl in R1, R2; try done.
    split; [done|].
    exists ([Log INFO "download_and_store_tweets_on_default_mongodb_instance >>>";
             Log DEBUG (credentials_line ck cs tok sec);
             Log INFO "twitter_api_setup >>>"; Log INFO "twitter_api_setup <<<";
             Log INFO "download_and_store_tweets_on_mongodb >>>"] ++ evs
            ++ [Log INFO "download_and_store_tweets_on_mongodb <<<";
                Log INFO "download_and_store_tweets_on_default_mongodb_instance <<<"]).
    split.
    + simpl. rewrite R2. rewrite <- ?app_assoc. simpl. by rewrite <- ?app_assoc.
    + rewrite !insert_calls_app, R3. simpl. by rewrite app_nil_r.
Qed.

End Properties.

(** * The properties at sample inputs *)

Lemma scripted_plays script : plays (Sample.scripted script) 0 script.
Proof.
  split.
  - intros j o Hj. unfold Sample.scripted. simpl. by rewrite Hj.
  - unfold Sample.scripted. simpl. by rewrite lookup_ge_None_2.
Qed.

(** Three tweets against a sink that fails on the second: three calls of
    [insert_one], one for each tweet, in the order fetched. *)
Lemma collect_writes_each_fetched_tweet_once_witness :
  let E := Sample.flaky in
  let r := collect_and_store_tweets_from_query E 10 Sample.api "rocq" "2020-01-01"
             "2020-01-31" Sample.coll None Sample.world in
  fst r = Returns tt /\
  exists evs,
    trace (snd r) = trace Sample.world ++ evs /\
    insert_calls evs
    = [(Sample.coll, filtered_tweet "rocq" (Sample.tweet "a"));
       (Sample.coll, filtered_tweet "rocq" (Sample.tweet "b"));
       (Sample.coll, filtered_tweet "rocq" (Sample.tweet "c"))] /\
    documents Sample.coll (snd r)
    = documents Sample.coll Sample.world
      ++ accepted E (inserts Sample.world) Sample.coll
           (map (filtered_tweet "rocq") Sample.a_b_c).
Proof.
  intros E r.
  apply (proj1 (proj2 (collect_writes_each_fetched_tweet_once E)) 10%nat Sample.api "rocq"
           "2020-01-01" "2020-01-31" Sample.coll None Sample.world
           (map Item Sample.a_b_c)).
  - apply scripted_plays.
  - reflexivity.
  - intros j doc e. unfold E, Sample.flaky. cbn [sink Sample.env].
    case_decide; [|done]. by intros [= <-].
  - simpl. lia.
Defined.

(** The sink fails on the second of three tweets: the first and the third
    are stored. *)
Lemma write_error_drops_only_that_tweet_witness :
  let E := Sample.flaky in
  let r := collect_and_store_tweets_from_query E 10 Sample.api "rocq" "2020-01-01"
             "2020-01-31" Sample.coll None Sample.world in
  fst r = Returns tt /\
  exists evs,
    trace (snd r) = trace Sample.world ++ evs /\
    insert_calls evs = map (fun tweet => (Sample.coll, filtered_tweet "rocq" tweet)) Sample.a_b_c /\
    error_logs evs = [("Error on writing on MongoDB", PyMongoError "down")] /\
    documents Sample.coll (snd r)
    = documents Sample.coll Sample.world
      ++ map (filtered_tweet "rocq") [Sample.tweet "a"; Sample.tweet "c"].
Proof.
  intros E r.
  apply (write_error_drops_only_that_tweet E 10 Sample.api "rocq" "2020-01-01"
           "2020-01-31" Sample.coll None Sample.world Sample.a_b_c 1 "down").
  - apply scripted_plays.
  - simpl. lia.
  - reflexivity.
  - intros j doc Hj. unfold E, Sample.flaky. cbn [sink Sample.env].
    case_decide as Hd; [|reflexivity]. injection Hd as ->. exfalso. apply Hj. reflexivity.
  - simpl. lia.
Defined.

Lemma sample_sink_accepts script j c doc :
  sink (Sample.env script None StopIteration) j c doc = None.
Proof. cbn [sink Sample.env]. by case_decide. Qed.

(** A rate-limit signal at counter 5; one signal before three tweets; a
    persistent outage with fuel 4. *)
Lemma backoff_is_linear_and_unbounded_witness :
  (while_true Sample.down 3 "rocq" Sample.coll 0 5 Sample.opened_world
   = while_true Sample.down 2 "rocq" Sample.coll 0 6
       (emit (Sleep 300)
          (emit (Log INFO "Reached Tweet limits, waiting for 300 seconds")
             (advance 0 {| request := Sample.request0; calls := 0 |} 1
                Sample.opened_world)))) /\
  (let r := collect_and_store_tweets_from_query Sample.once 10 Sample.api "rocq"
              "2020-01-01" "2020-01-31" Sample.coll None Sample.world in
   exists n evs,
     (n <= 10)%nat /\
     cursors (snd r) = cursors Sample.world
                       ++ [{| request := Sample.request0; calls := n |}] /\
     trace (snd r) = trace Sample.world ++ evs /\
     opened evs = [Sample.request0] /\
     sleeps evs
     = map (fun k : nat => 60 * Z.of_nat k)
         (seq 1 (rate_limits (upstream Sample.once 0 Sample.request0) 0 n))) /\
  (let r := collect_and_store_tweets_from_query Sample.down 4 Sample.api "rocq"
              "2020-01-01" "2020-01-31" Sample.coll None Sample.world in
   fst r = OutOfFuel /\
   exists evs, trace (snd r) = trace Sample.world ++ evs /\ sleeps evs = [60; 120; 180; 240]) /\
  (let r := collect_and_store_tweets_from_query Sample.once 10 Sample.api "rocq"
              "2020-01-01" "2020-01-31" Sample.coll None Sample.world in
   fst r = Returns tt /\
   exists evs,
     trace (snd r) = trace Sample.world ++ evs /\
     sleeps evs = [60] /\
     insert_calls evs
     = map (fun tweet => (Sample.coll, filtered_tweet "rocq" tweet)) Sample.a_b_c /\
     documents Sample.coll (snd r)
     = documents Sample.coll Sample.world ++ map (filtered_tweet "rocq") Sample.a_b_c).
Proof.
  split; [|split; [|split]].
  - apply (proj1 (backoff_is_linear_and_unbounded Sample.down) 2%nat "rocq" Sample.coll
             0%nat 5 Sample.opened_world {| request := Sample.request0; calls := 0 |} "429");
      reflexivity.
  - apply (proj1 (proj2 (backoff_is_linear_and_unbounded Sample.once)) 10%nat Sample.api
             "rocq" "2020-01-01" "2020-01-31" Sample.coll None Sample.world).
    intros k doc e He. unfold Sample.once in He. by rewrite sample_sink_accepts in He.
  - apply (proj1 (proj2 (proj2 (backoff_is_linear_and_unbounded Sample.down))) 4%nat
             Sample.api "rocq" "2020-01-01" "2020-01-31" Sample.coll None Sample.world).
    intros i. by exists "429".
  - apply (proj2 (proj2 (proj2 (backoff_is_linear_and_unbounded Sample.once))) 10%nat
             Sample.api "rocq" "2020-01-01" "2020-01-31" Sample.coll None Sample.world
             "429" Sample.a_b_c).
    + apply scripted_plays.
    + intros j doc. apply sample_sink_accepts.
    + simpl. lia.
Defined.



(** An exception of no handled class from the cursor, from the sink, and
    in the second of three queries. *)
Lemma unclassified_exception_aborts_run_witness :
  (let E := Sample.env (fun _ => [Throw (OtherException "ConnectionError")])
              None StopIteration in
   while_true E 3 "rocq" Sample.coll 0 1 Sample.opened_world
   = (Raises (OtherException "ConnectionError"),
      advance 0 {| request := Sample.request0; calls := 0 |} 1 Sample.opened_world)) /\
  (let r := while_true Sample.refusing 3 "rocq" Sample.coll 0 1 Sample.opened_world in
   fst r = Raises (OtherException "InvalidDocument") /\
   trace (snd r)
   = trace Sample.opened_world
     ++ [Log INFO ("Query: " +:+ "rocq" +:+ ", Tweet_date: "
                   +:+ format_arg Sample.refusing (created_at (Sample.tweet "a")));
         InsertOne Sample.coll (filtered_tweet "rocq" (Sample.tweet "a"))]) /\
  fst (collect_and_store_tweets_from_query Sample.broken 5 Sample.api "rocq"
         "2020-01-01" "2020-01-31" Sample.coll None Sample.opened_world)
  = Raises (OtherException "ConnectionError") /\
  handled (OtherException "ConnectionError") = false /\
  (let w0 := emit (Log INFO "download_and_store_tweets_on_mongodb >>>") Sample.world in
   let w1 := emit (Log INFO ("Working on: " +:+ "q2"))
               (snd (for_query Sample.broken 5 Sample.api ["q1"] "2020-01-01" "2020-01-31"
                       Sample.coll w0)) in
   let r := collect_and_store_tweets_from_query Sample.broken 5 Sample.api "q2"
              "2020-01-01" "2020-01-31" Sample.coll None w1 in
   download_and_store_tweets_on_mongodb Sample.broken 5 Sample.api (["q1"] ++ "q2" :: ["q3"])
     "2020-01-01" "2020-01-31" Sample.coll Sample.world
   = (Raises (OtherException "ConnectionError"), snd r) /\
   exists evs,
     trace (snd r) = trace Sample.world ++ evs /\
     opened evs
     = map (fun query => search_request Sample.api query "2020-01-01" "2020-01-31" 200)
         (["q1"] ++ ["q2"])).
Proof.
  split; [|split; [|split; [|split]]].
  - intros E.
    apply (proj1 (unclassified_exception_aborts_run E) 2%nat "rocq" Sample.coll 0%nat 1
             Sample.opened_world {| request := Sample.request0; calls := 0 |}
             (OtherException "ConnectionError")); reflexivity.
  - apply (proj1 (proj2 (unclassified_exception_aborts_run Sample.refusing)) 2%nat "rocq"
             Sample.coll 0%nat 1 Sample.opened_world
             {| request := Sample.request0; calls := 0 |} (Sample.tweet "a")
             (OtherException "InvalidDocument")); reflexivity.
  - rewrite (proj1 (proj2 (proj2 (unclassified_exception_aborts_run Sample.broken)))
               5%nat Sample.api "rocq" "2020-01-01" "2020-01-31" Sample.coll None
               Sample.opened_world (OtherException "ConnectionError"));
      [reflexivity|vm_compute; reflexivity].
  - apply (proj1 (proj2 (proj2 (proj2 (unclassified_exception_aborts_run Sample.broken))))
             5%nat Sample.api "rocq" "2020-01-01" "2020-01-31" Sample.coll None
             Sample.opened_world (OtherException "ConnectionError")).
    vm_compute. reflexivity.
  - apply (proj2 (proj2 (proj2 (proj2 (unclassified_exception_aborts_run Sample.broken))))
             5%nat Sample.api ["q1"] "q2" ["q3"] "2020-01-01" "2020-01-31" Sample.coll
             Sample.world (OtherException "ConnectionError"));
      vm_compute; reflexivity.
Defined.

Lemma sample_keys_valid :
  holds_credentials Sample.down "keys.json" "ck" "cs" "tok" "sec".
Proof.
  exists "valid", {[ "Twitter" :=
    PDict (list_to_map [("consumer_key", PStr "ck"); ("consumer_secret", PStr "cs");
                        ("access_token", PStr "tok"); ("access_secret", PStr "sec")]) ]},
    (list_to_map [("consumer_key", PStr "ck"); ("consumer_secret", PStr "cs");
                  ("access_token", PStr "tok"); ("access_secret", PStr "sec")]).
  repeat split; vm_compute; reflexivity.
Qed.

Lemma sample_other_valid :
  holds_credentials Sample.down "other.json" "ck" "cs" "tok" "sec2".
Proof.
  exists "valid2", {[ "Twitter" :=
    PDict (list_to_map [("consumer_key", PStr "ck"); ("consumer_secret", PStr "cs");
                        ("access_token", PStr "tok"); ("access_secret", PStr "sec2")]) ]},
    (list_to_map [("consumer_key", PStr "ck"); ("consumer_secret", PStr "cs");
                  ("access_token", PStr "tok"); ("access_secret", PStr "sec2")]).
  repeat split; vm_compute; reflexivity.
Qed.

(** A valid file, no file, a file that does not parse, a file without the
    top-level key and a file with one field only. *)
Lemma load_twitter_credentials_returns_or_raises_witness :
  fst (load_twitter_credentials Sample.down "keys.json" Sample.world)
  = Returns (PStr "ck", PStr "cs", PStr "tok", PStr "sec") /\
  load_twitter_credentials Sample.down "absent.json" Sample.world
  = (Raises (FileNotFoundError "absent.json"), Sample.world) /\
  load_twitter_credentials Sample.down "broken.json" Sample.world
  = (Raises JSONDecodeError, Sample.world) /\
  load_twitter_credentials Sample.down "empty.json" Sample.world
  = (Raises (KeyError "Twitter"), Sample.world) /\
  (exists missing,
     ({[ "consumer_key" := PStr "ck" ]} : gmap string pyval) !! missing = None /\
     load_twitter_credentials Sample.down "partial.json" Sample.world
     = (Raises (KeyError missing), Sample.world)).
Proof.
  split; [|split; [|split; [|split]]].
  - apply (proj1 (load_twitter_credentials_returns_or_raises Sample.down)).
    apply sample_keys_valid.
  - apply (proj1 (proj2 (load_twitter_credentials_returns_or_raises Sample.down))).
    vm_compute. reflexivity.
  - apply (proj1 (proj2 (proj2 (load_twitter_credentials_returns_or_raises Sample.down)))
             "broken.json" "{"); vm_compute; reflexivity.
  - apply (proj1 (proj2 (proj2 (proj2
             (load_twitter_credentials_returns_or_raises Sample.down))))
             "empty.json" "{}" ∅); vm_compute; reflexivity.
  - apply (proj2 (proj2 (proj2 (proj2
             (load_twitter_credentials_returns_or_raises Sample.down))))
             "partial.json" "partial"
             {[ "Twitter" := PDict {[ "consumer_key" := PStr "ck" ]} ]}
             {[ "consumer_key" := PStr "ck" ]} "access_token").
    + vm_compute. reflexivity.
    + vm_compute. reflexivity.
    + vm_compute. reflexivity.
    + apply list_elem_of_In. simpl. auto.
    + vm_compute. reflexivity.
Defined.

(** The debug line of a valid file, and two files that differ in the
    access secret only. *)
Lemma load_twitter_credentials_logs_secrets_witness :
  trace (snd (load_twitter_credentials Sample.down "keys.json" Sample.world))
  = trace Sample.world ++ [Log DEBUG "ck-cs-tok-sec"] /\
  debug_logs (trace (snd (load_twitter_credentials Sample.down "keys.json" Sample.world)))
  <> debug_logs (trace (snd (load_twitter_credentials Sample.down "other.json"
                               Sample.world))).
Proof.
  split.
  - apply (proj1 (load_twitter_credentials_logs_secrets Sample.down) "keys.json"
             "ck" "cs" "tok" "sec" Sample.world).
    apply sample_keys_valid.
  - apply (proj2 (load_twitter_credentials_logs_secrets Sample.down) "keys.json"
             "other.json" "ck" "cs" "tok" "sec" "ck" "cs" "tok" "sec2" Sample.world).
    + apply sample_keys_valid.
    + apply sample_other_valid.
    + right. right. right. repeat split; congruence.
Defined.

Lemma sample_env_keys_valid script bad failure :
  holds_credentials (Sample.env script bad failure) "keys.json" "ck" "cs" "tok" "sec".
Proof.
  exists "valid", {[ "Twitter" :=
    PDict (list_to_map [("consumer_key", PStr "ck"); ("consumer_secret", PStr "cs");
                        ("access_token", PStr "tok"); ("access_secret", PStr "sec")]) ]},
    (list_to_map [("consumer_key", PStr "ck"); ("consumer_secret", PStr "cs");
                  ("access_token", PStr "tok"); ("access_secret", PStr "sec")]).
  repeat split; vm_compute; reflexivity.
Qed.

(** The main function on the sample key file and two queries of three
    tweets each: six calls of [insert_one], all on the collection
    ["twitter"] of ["dm_project"]. *)
Lemma default_instance_writes_to_dm_project_twitter_witness :
  let r := download_and_store_tweets_on_default_mongodb_instance Sample.steady 10
             "keys.json" ["q1"; "q2"] "2020-01-01" "2020-01-31" "localhost" 27017
             Sample.world in
  let target := {| coll_db := {| db_client := {| client_host := "localhost";
                                                 client_port := 27017 |};
                                 db_name := "dm_project" |};
                   coll_name := "twitter" |} in
  fst r = Returns tt /\
  exists evs,
    trace (snd r) = trace Sample.world ++ evs /\
    insert_calls evs
    = [(target, filtered_tweet "q1" (Sample.tweet "a"));
       (target, filtered_tweet "q1" (Sample.tweet "b"));
       (target, filtered_tweet "q1" (Sample.tweet "c"));
       (target, filtered_tweet "q2" (Sample.tweet "a"));
       (target, filtered_tweet "q2" (Sample.tweet "b"));
       (target, filtered_tweet "q2" (Sample.tweet "c"))].
Proof.
  apply (proj2 (default_instance_writes_to_dm_project_twitter Sample.steady) 10%nat "keys.json"
           ["q1"; "q2"] "2020-01-01" "2020-01-31" "localhost" 27017 Sample.world
           "ck" "cs" "tok" "sec" (fun _ => Sample.a_b_c)).
  - apply sample_env_keys_valid.
  - reflexivity.
  - reflexivity.
  - intros i query _. apply scripted_plays.
  - intros j doc. apply sample_sink_accepts.
  - intros i _. simpl. lia.
Defined.

(** ** Runs of the sample environments *)

Example outage_sleeps :
  sleeps (trace (snd (collect_and_store_tweets_from_query Sample.down 3 Sample.api "rocq"
                        "2020-01-01" "2020-01-31" Sample.coll None Sample.world)))
  = [60; 120; 180].
Proof. vm_compute. reflexivity. Qed.

Example flaky_documents :
  documents Sample.coll
    (snd (collect_and_store_tweets_from_query Sample.flaky 10 Sample.api "rocq"
            "2020-01-01" "2020-01-31" Sample.coll None Sample.world))
  = [filtered_tweet "rocq" (Sample.tweet "a"); filtered_tweet "rocq" (Sample.tweet "c")].
Proof. vm_compute. reflexivity. Qed.

Example two_queries_schedule :
  schedule (trace (snd (download_and_store_tweets_on_mongodb Sample.once 10 Sample.api
                          ["q1"; "q2"] "2020-01-01" "2020-01-31" Sample.coll
                          Sample.world)))
  = [Invocation (search_request Sample.api "q1" "2020-01-01" "2020-01-31" 200);
     Pause 107;
     Invocation (search_request Sample.api "q2" "2020-01-01" "2020-01-31" 200);
     Pause 116].
Proof. vm_compute. reflexivity. Qed.

Example interleaved_signals_sleeps :
  sleeps (trace (snd (collect_and_store_tweets_from_query
                        (Sample.env (fun _ => [Throw (TweepError "429");
                                               Item (Sample.tweet "a");
                                               Throw (TweepError "429")])
                           None StopIteration)
                        10 Sample.api "rocq" "2020-01-01" "2020-01-31" Sample.coll None
                        Sample.world)))
  = [60; 120].
Proof. vm_compute. reflexivity. Qed.

(** * Further properties *)

Section Further.

Variable E : Environment.

(** ** Runs that fetch and store tweets until [next()] raises *)

Lemma follows_cons stream i o script e :
  follows stream i (o :: script) e -> stream i = o /\ follows stream (S i) script e.
Proof.
  intros [Hs Hend]. split; [|split].
  - rewrite <- (Nat.add_0_r i). by apply Hs.
  - intros j o' Hj. rewrite Nat.add_succ_comm. by apply Hs.
  - simpl in Hend. by rewrite Nat.add_succ_comm.
Qed.

Lemma follows_nil stream i e : follows stream i [] e -> stream i = Throw e.
Proof. intros [_ Hend]. simpl in Hend. by rewrite Nat.add_0_r in Hend. Qed.

Lemma while_true_tweets ts : forall fuel query coll tweets bc w c e,
  cursors w !! tweets = Some c ->
  follows (upstream E tweets (request c)) (calls c) (map Item ts) e ->
  e = StopIteration \/ handled e = false ->
  (forall j doc, (inserts w <= j)%nat -> sink E j coll doc = None) ->
  (length ts < fuel)%nat ->
  fst (while_true E fuel query coll tweets bc w) = ending e /\
  trace (snd (while_true E fuel query coll tweets bc w))
  = trace w ++ flat_map (stored_events E query coll) ts ++ ending_events query e /\
  documents coll (snd (while_true E fuel query coll tweets bc w))
  = documents coll w ++ map (filtered_tweet query) ts /\
  cursors (snd (while_true E fuel query coll tweets bc w))
  = cursors (advance tweets c (S (length ts)) w).
Proof.
  induction ts as [|t ts IH]; intros fuel query coll tweets bc w c e Hc Hf He Hsink Hfuel.
  - destruct fuel as [|fuel]; [simpl in Hfuel; lia|].
    rewrite (while_true_S E), (try_statement_unfold E _ _ _ _ _ _ Hc). cbv zeta.
    rewrite (follows_nil _ _ _ Hf).
    destruct He as [->|He]; [|destruct e; try done]; simpl; by rewrite ?app_nil_r.
  - destruct fuel as [|fuel]; [simpl in Hfuel; lia|].
    destruct (follows_cons _ _ _ _ _ Hf) as [Ho Hf'].
    pose proof (advance_lookup tweets c 1 w Hc) as Hc1.
    rewrite (while_true_S E), (try_statement_unfold E _ _ _ _ _ _ Hc). cbv zeta.
    rewrite Ho, Hsink by lia.
    match goal with |- context [while_true E fuel _ _ _ _ ?w1] =>
      destruct (IH fuel query coll tweets bc w1 _ e Hc1 Hf' He) as (R1 & R2 & R3 & R4);
        [intros j doc Hj; apply Hsink; simpl in Hj; lia | simpl in Hfuel; lia |] end.
    split; [done|]. split; [|split].
    + rewrite R2. simpl. by rewrite <- !app_assoc.
    + rewrite R3. unfold documents at 1. simpl. rewrite lookup_insert_eq. simpl.
      by rewrite <- app_assoc.
    + rewrite R4. simpl. rewrite list_insert_insert_eq. by rewrite Nat.add_succ_r.
Qed.

Lemma collect_tweets fuel api query since_date until_date coll limit w ts e :
  follows (upstream E (length (cursors w))
             (search_request api query since_date until_date (default 200 limit)))
    0 (map Item ts) e ->
  e = StopIteration \/ handled e = false ->
  (forall j doc, (inserts w <= j)%nat -> sink E j coll doc = None) ->
  (length ts < fuel)%nat ->
  let r := collect_and_store_tweets_from_query E fuel api query since_date until_date
             coll limit w in
  fst r = ending e /\
  trace (snd r)
  = trace w
    ++ [Log INFO "collect_and_store_tweets_from_query >>>";
        CursorOpen (length (cursors w))
          (search_request api query since_date until_date (default 200 limit))]
    ++ flat_map (stored_events E query coll) ts
    ++ ending_events query e ++ closing (ending e) /\
  documents coll (snd r) = documents coll w ++ map (filtered_tweet query) ts /\
  cursors (snd r)
  = cursors w ++ [{| request := search_request api query since_date until_date
                                  (default 200 limit);
                     calls := S (length ts) |}].
Proof.
  intros Hf He Hsink Hfuel r. subst r. rewrite (collect_unfold E). cbv zeta.
  set (req := search_request api query since_date until_date (default 200 limit)) in *.
  set (tweets := length (cursors w)) in *.
  set (w0 := emit (CursorOpen tweets req) _).
  assert (Hc : cursors w0 !! tweets = Some {| request := req; calls := 0 |}).
  { subst w0 tweets. simpl. by rewrite lookup_app_r, Nat.sub_diag. }
  destruct (while_true_tweets ts fuel query coll tweets 1 w0 _ e Hc Hf He Hsink Hfuel)
    as (R1 & R2 & R3 & R4).
  assert (Hcs : cursors (advance tweets {| request := req; calls := 0 |} (S (length ts)) w0)
                = cursors w ++ [{| request := req; calls := S (length ts) |}]).
  { subst w0 tweets. simpl. rewrite Nat.add_0_r.
    by rewrite insert_app_r_alt, Nat.sub_diag. }
  rewrite Hcs in R4.
  destruct (while_true E fuel query coll tweets 1 w0) as [[[]|e'|] w'];
    simpl in R1, R2, R3, R4; rewrite <- R1; simpl; (split; [done|]);
    (split; [|by split]); rewrite R2; subst w0; simpl;
    rewrite <- ?app_assoc; simpl; by rewrite <- ?app_assoc, ?app_nil_r.
Qed.

(** X1: against an upstream that yields the tweets [ts] and then stops,
    and a sink that accepts the writes, the call returns; between its entry
    line and cursor and its completion and exit lines it does, for each
    tweet in turn, one info line and one [insert_one], and nothing else: no
    sleep, no error line.  For an empty result sequence that is the four
    events alone, with no write. *)
Theorem collect_stores_every_tweet fuel api query since_date until_date coll limit w ts :
  plays (upstream E (length (cursors w))
           (search_request api query since_date until_date (default 200 limit)))
    0 (map Item ts) ->
  (forall j doc, (inserts w <= j)%nat -> sink E j coll doc = None) ->
  (length ts < fuel)%nat ->
  let r := collect_and_store_tweets_from_query E fuel api query since_date until_date
             coll limit w in
  fst r = Returns tt /\
  trace (snd r)
  = trace w
    ++ [Log INFO "collect_and_store_tweets_from_query >>>";
        CursorOpen (length (cursors w))
          (search_request api query since_date until_date (default 200 limit))]
    ++ flat_map (fun tweet =>
         [Log INFO ("Query: " +:+ query +:+ ", Tweet_date: "
                    +:+ format_arg E (created_at tweet));
          InsertOne coll (filtered_tweet query tweet)]) ts
    ++ [Log INFO ("Finished collecting and storing tweets for " +:+ query);
        Log INFO "collect_and_store_tweets_from_query <<<"] /\
  documents coll (snd r) = documents coll w ++ map (filtered_tweet query) ts.
Proof.
  intros Hp Hsink Hfuel r.
  destruct (collect_tweets fuel api query since_date until_date coll limit w ts
              StopIteration Hp (or_introl eq_refl) Hsink Hfuel) as (R1 & R2 & R3 & _).
  by repeat split.
Qed.

(** X2: when, after the tweets [ts], [next()] raises an exception of a
    class without a handler, the call raises it and logs neither a
    completion nor an exit line, and the documents of [ts] written before
    stay in the collection: nothing is rolled back. *)
Theorem collect_abort_keeps_earlier_writes fuel api query since_date until_date coll
    limit w ts e :
  follows (upstream E (length (cursors w))
             (search_request api query since_date until_date (default 200 limit)))
    0 (map Item ts) e ->
  handled e = false ->
  (forall j doc, (inserts w <= j)%nat -> sink E j coll doc = None) ->
  (length ts < fuel)%nat ->
  let r := collect_and_store_tweets_from_query E fuel api query since_date until_date
             coll limit w in
  fst r = Raises e /\
  trace (snd r)
  = trace w
    ++ [Log INFO "collect_and_store_tweets_from_query >>>";
        CursorOpen (length (cursors w))
          (search_request api query since_date until_date (default 200 limit))]
    ++ flat_map (fun tweet =>
         [Log INFO ("Query: " +:+ query +:+ ", Tweet_date: "
                    +:+ format_arg E (created_at tweet));
          InsertOne coll (filtered_tweet query tweet)]) ts /\
  documents coll (snd r) = documents coll w ++ map (filtered_tweet query) ts.
Proof.
  intros Hf He Hsink Hfuel r.
  destruct (collect_tweets fuel api query since_date until_date coll limit w ts
              e Hf (or_intror He) Hsink Hfuel) as (R1 & R2 & R3 & _).
  fold r in R1, R2, R3.
  assert (Hend : ending e = Raises e) by (by destruct e).
  rewrite Hend in R1, R2. split; [done|]. split; [|done].
  rewrite R2. destruct e; try done; simpl; by rewrite !app_nil_r.
Qed.

(** ** The time slept *)

Lemma total_app l1 l2 : total (l1 ++ l2) = total l1 + total l2.
Proof. induction l1 as [|x l1 IH]; simpl; [done|]. rewrite IH. lia. Qed.

Lemma total_backoffs bc m :
  total (backoffs bc m) = 30 * Z.of_nat m * (2 * bc + Z.of_nat m - 1).
Proof.
  revert bc. induction m as [|m IH]; intros bc; [done|].
  rewrite (backoffs_S bc m). simpl total. rewrite IH. lia.
Qed.

(** X3: in a call that met m rate-limit signals the back-off sleeps add
    up to 30 m (m + 1) seconds: the waits grow linearly and their sum
    quadratically. *)
Theorem backoff_sleeps_add_up fuel api query since_date until_date coll limit w :
  sink_never_rate_limits E coll ->
  let r := collect_and_store_tweets_from_query E fuel api query since_date until_date
             coll limit w in
  let req := search_request api query since_date until_date (default 200 limit) in
  exists n evs,
    cursors (snd r) = cursors w ++ [{| request := req; calls := n |}] /\
    trace (snd r) = trace w ++ evs /\
    let m := Z.of_nat (rate_limits (upstream E (length (cursors w)) req) 0 n) in
    total (sleeps evs) = 30 * m * (m + 1).
Proof.
  intros Hquiet r req.
  destruct (collect_run E fuel api query since_date until_date coll limit w)
    as (n & evs & _ & _ & [Hcs _ Ht _ _ _ _ _ _ _ Hsl _]).
  fold r req in Hcs, Ht, Hsl.
  exists n, (Log INFO "collect_and_store_tweets_from_query >>>"
             :: CursorOpen (length (cursors w)) req :: evs ++ closing (fst r)).
  split; [done|]. split; [done|]. cbv zeta.
  change (total (sleeps (evs ++ closing (fst r))) =
          30 * Z.of_nat (rate_limits (upstream E (length (cursors w)) req) 0 n)
          * (Z.of_nat (rate_limits (upstream E (length (cursors w)) req) 0 n) + 1)).
  rewrite sleeps_app, total_app, Hsl, total_backoffs by done.
  destruct (fst r); simpl; lia.
Qed.

(** ** When the call returns *)

Lemma while_true_returns fuel : forall query coll tweets bc w c,
  cursors w !! tweets = Some c ->
  (forall k doc, sink E k coll doc <> Some StopIteration) ->
  fst (while_true E fuel query coll tweets bc w) = Returns tt ->
  exists n,
    cursors (snd (while_true E fuel query coll tweets bc w))
    = cursors (advance tweets c (S n) w) /\
    upstream E tweets (request c) (n + calls c) = Throw StopIteration /\
    forall j, (j < n)%nat -> upstream E tweets (request c) (j + calls c) <> Throw StopIteration.
Proof.
  induction fuel as [|fuel IH]; intros query coll tweets bc w c Hc Hsink; [done|].
  pose proof (advance_lookup tweets c 1 w Hc) as Hc1.
  assert (Hgo : forall b w1,
    cursors w1 = cursors (advance tweets c 1 w) ->
    upstream E tweets (request c) (calls c) <> Throw StopIteration ->
    fst (while_true E fuel query coll tweets b w1) = Returns tt ->
    exists n,
      cursors (snd (while_true E fuel query coll tweets b w1))
      = cursors (advance tweets c (S n) w) /\
      upstream E tweets (request c) (n + calls c) = Throw StopIteration /\
      forall j, (j < n)%nat ->
        upstream E tweets (request c) (j + calls c) <> Throw StopIteration).
  { intros b w1 Hw1 Hne Hret. rewrite <- Hw1 in Hc1.
    destruct (IH query coll tweets b w1 _ Hc1 Hsink Hret) as (n & R1 & R2 & R3).
    simpl in R1, R2, R3. exists (S n). split; [|split].
    - rewrite R1, Hw1. simpl. rewrite list_insert_insert_eq. by rewrite Nat.add_succ_r.
    - by rewrite Nat.add_succ_r in R2.
    - intros [|j] Hj; [done|]. specialize (R3 j). rewrite Nat.add_succ_r in R3.
      apply R3. lia. }
  rewrite (while_true_S E), (try_statement_unfold E _ _ _ _ _ _ Hc). cbv zeta.
  destruct (upstream E tweets (request c) (calls c)) as [tweet|e] eqn:Hup.
  - destruct (sink E (inserts w) coll (filtered_tweet query tweet)) as [e|] eqn:He.
    + destruct e; try done; try (by apply Hgo).
      by destruct (Hsink _ _ He).
    + by apply Hgo.
  - destruct e; try done; try (by apply Hgo).
    intros _. exists 0%nat. split; [done|]. split; [done|]. intros j Hj. lia.
Qed.

(** X4: the call returns only at exhaustion.  If it returns, the last of
    the calls of [next()] it made raised [StopIteration] and none before
    did: it never stops early and never calls [next()] again after the
    sequence has ended (the sink raising no [StopIteration] of its own). *)
Theorem collect_returns_only_at_exhaustion fuel api query since_date until_date coll
    limit w :
  (forall k doc, sink E k coll doc <> Some StopIteration) ->
  let r := collect_and_store_tweets_from_query E fuel api query since_date until_date
             coll limit w in
  let req := search_request api query since_date until_date (default 200 limit) in
  fst r = Returns tt ->
  exists n,
    cursors (snd r) = cursors w ++ [{| request := req; calls := S n |}] /\
    upstream E (length (cursors w)) req n = Throw StopIteration /\
    forall j, (j < n)%nat -> upstream E (length (cursors w)) req j <> Throw StopIteration.
Proof.
  intros Hsink r req. subst r. rewrite (collect_unfold E). cbv zeta. fold req.
  set (tweets := length (cursors w)) in *.
  set (w0 := emit (CursorOpen tweets req) _).
  assert (Hc : cursors w0 !! tweets = Some {| request := req; calls := 0 |}).
  { subst w0 tweets. simpl. by rewrite lookup_app_r, Nat.sub_diag. }
  pose proof (while_true_returns fuel query coll tweets 1 w0 _ Hc Hsink) as H.
  destruct (while_true E fuel query coll tweets 1 w0) as [[[]|e'|] w']; try done.
  intros _. destruct H as (n & R1 & R2 & R3); [done|].
  simpl in R1, R2, R3. exists n. split; [|split].
  - simpl. rewrite R1. subst w0 tweets. simpl. rewrite Nat.add_0_r.
    by rewrite insert_app_r_alt, Nat.sub_diag.
  - by rewrite Nat.add_0_r in R2.
  - intros j Hj. specialize (R3 j Hj). by rewrite Nat.add_0_r in R3.
Qed.

(** ** The driver, whatever its outcome *)

Lemma accepted_Forall (P : pyval -> Prop) k coll docs :
  Forall P docs -> Forall P (accepted E k coll docs).
Proof.
  intros H. revert k. induction H as [|doc docs Hd _ IH]; intros k; simpl; [done|].
  destruct (sink E k coll doc); [apply IH|constructor; [done|apply IH]].
Qed.

Lemma for_query_documents fuel api since_date until_date coll qs : forall w,
  exists docs,
    documents coll (snd (for_query E fuel api qs since_date until_date coll w))
    = documents coll w ++ docs /\
    Forall (tagged qs) docs.
Proof.
  induction qs as [|query qs IH]; intros w.
  { exists []. simpl. by rewrite app_nil_r. }
  rewrite (for_query_cons E).
  destruct (collect_run E fuel api query since_date until_date coll None
              (emit (Log INFO ("Working on: " +:+ query)) w))
    as (n & evs1 & _ & _ & [_ _ _ _ _ D _ _ _ _ _ _]).
  set (ts := fetched _ 0 n) in D.
  assert (Htag : Forall (tagged (query :: qs))
                   (accepted E (inserts w) coll (map (filtered_tweet query) ts))).
  { apply accepted_Forall. clear. induction ts as [|t ts IH]; constructor; [|done].
    exists query. split; [by left|done]. }
  destruct (collect_and_store_tweets_from_query E fuel api query since_date until_date
              coll None (emit (Log INFO ("Working on: " +:+ query)) w))
    as [[[]|e|] w1]; simpl in D; try (eexists; split; [exact D|exact Htag]).
  destruct (IH (pause E w1)) as (docs & Hd & Ht).
  eexists. split.
  - rewrite Hd. change (documents coll (pause E w1)) with (documents coll w1).
    rewrite D, <- app_assoc. reflexivity.
  - apply Forall_app. split; [done|].
    eapply Forall_impl; [exact Ht|]. intros doc (q & Hq & Hf). exists q. split; [by right|done].
Qed.

(** X5: whatever the outcome of the driver's run (returned, raised, cut
    short), the collection is only appended to: the documents it held stay,
    in place, and every document added carries in its query field one of
    the queries of the list. *)
Theorem download_only_appends_tagged_documents fuel api qs since_date until_date coll w :
  exists docs,
    documents coll (snd (download_and_store_tweets_on_mongodb E fuel api qs since_date
                           until_date coll w))
    = documents coll w ++ docs /\
    Forall (fun doc => exists query, query ∈ qs /\ field doc "query" = Some (PStr query))
      docs.
Proof.
  rewrite (download_unfold E).
  set (w0 := emit (Log INFO "download_and_store_tweets_on_mongodb >>>") w).
  destruct (for_query_documents fuel api since_date until_date coll qs w0) as (docs & Hd & Ht).
  exists docs. split; [|exact Ht].
  destruct (for_query E fuel api qs since_date until_date coll w0) as [[[]|e|] w1];
    exact Hd.
Qed.

(** ** The driver on the happy path *)

Lemma for_query_stores fuel api since_date until_date coll qs : forall w tss,
  (forall i query, qs !! i = Some query ->
     plays (upstream E (length (cursors w) + i)
              (search_request api query since_date until_date 200))
       0 (map Item (tss i))) ->
  (forall j doc, sink E j coll doc = None) ->
  (forall i, (i < length qs)%nat -> (length (tss i) < fuel)%nat) ->
  fst (for_query E fuel api qs since_date until_date coll w) = Returns tt /\
  documents coll (snd (for_query E fuel api qs since_date until_date coll w))
  = documents coll w
    ++ concat (imap (fun i query => map (filtered_tweet query) (tss i)) qs).
Proof.
  induction qs as [|query qs IH]; intros w tss Hp Hsink Hfuel.
  { simpl. by rewrite app_nil_r. }
  rewrite (for_query_cons E).
  set (wl := emit (Log INFO ("Working on: " +:+ query)) w).
  destruct (collect_tweets fuel api query since_date until_date coll None wl (tss 0%nat)
              StopIteration) as (R1 & _ & R3 & R4).
  { specialize (Hp 0%nat query eq_refl). by rewrite Nat.add_0_r in Hp. }
  { by left. }
  { intros; apply Hsink. }
  { apply Hfuel. simpl. lia. }
  destruct (collect_and_store_tweets_from_query E fuel api query since_date until_date
              coll None wl) as [[[]|e|] w1]; simpl in R1, R3, R4; try done.
  destruct (IH (pause E w1) (fun i => tss (S i))) as [Q1 Q2].
  { intros i q Hq. specialize (Hp (S i) q Hq).
    change (cursors (pause E w1)) with (cursors w1). rewrite R4, length_app. simpl.
    by rewrite <- Nat.add_assoc. }
  { done. }
  { intros i Hi. apply Hfuel. simpl. lia. }
  split; [done|].
  rewrite Q2. change (documents coll (pause E w1)) with (documents coll w1).
  rewrite R3. by rewrite <- app_assoc.
Qed.

(** X6: on the happy path the driver is correct end to end: when the
    cursor of the i-th query yields the tweets [tss i] and stops and the
    sink accepts the writes, the driver returns and the collection has
    gained, query after query in list order, the documents of each query's
    tweets, each under its own query. *)
Theorem download_stores_every_query fuel api qs since_date until_date coll w tss :
  (forall i query, qs !! i = Some query ->
     plays (upstream E (length (cursors w) + i)
              (search_request api query since_date until_date 200))
       0 (map Item (tss i))) ->
  (forall j doc, sink E j coll doc = None) ->
  (forall i, (i < length qs)%nat -> (length (tss i) < fuel)%nat) ->
  let r := download_and_store_tweets_on_mongodb E fuel api qs since_date until_date
             coll w in
  fst r = Returns tt /\
  documents coll (snd r)
  = documents coll w
    ++ concat (imap (fun i query => map (filtered_tweet query) (tss i)) qs).
Proof.
  intros Hp Hsink Hfuel r. subst r. rewrite (download_unfold E).
  set (w0 := emit (Log INFO "download_and_store_tweets_on_mongodb >>>") w).
  destruct (for_query_stores fuel api since_date until_date coll qs w0 tss Hp Hsink Hfuel)
    as [R1 R2].
  destruct (for_query E fuel api qs since_date until_date coll w0) as [[[]|e|] w1];
    simpl in R1; try done.
Qed.

(** ** The time the driver sleeps *)





(** ** The main function *)

Lemma for_query_opened fuel api since_date until_date coll qs : forall w,
  exists k evs,
    (k <= length qs)%nat /\
    trace (snd (for_query E fuel api qs since_date until_date coll w)) = trace w ++ evs /\
    opened evs
    = map (fun query => search_request api query since_date until_date 200) (take k qs) /\
    (fst (for_query E fuel api qs since_date until_date coll w) = Returns tt ->
     k = length qs).
Proof.
  induction qs as [|query qs IH]; intros w.
  { exists 0%nat, []. simpl. by rewrite app_nil_r. }
  rewrite (for_query_cons E).
  destruct (collect_run E fuel api query since_date until_date coll None
              (emit (Log INFO ("Working on: " +:+ query)) w))
    as (n & evs1 & _ & _ & [_ _ T _ _ _ _ O _ _ _ _]).
  set (pre := [Log INFO ("Working on: " +:+ query);
               Log INFO "collect_and_store_tweets_from_query >>>";
               CursorOpen (length (cursors (emit (Log INFO ("Working on: " +:+ query)) w)))
                 (search_request api query since_date until_date (default 200 None))]).
  destruct (collect_and_store_tweets_from_query E fuel api query since_date until_date
              coll None (emit (Log INFO ("Working on: " +:+ query)) w))
    as [[[]|e|] w1]; simpl in T.
  - destruct (IH (pause E w1)) as (k & evs & Hk & Ht & Hop & Hret).
    exists (S k), (pre ++ evs1 ++ [Log INFO "collect_and_store_tweets_from_query <<<";
                                   RandInt 30 120 (30 + entropy E (draws w1) `mod` 91);
                                   Sleep (30 + entropy E (draws w1) `mod` 91)] ++ evs).
    split; [simpl; lia|]. split; [|split].
    + rewrite Ht. unfold pause. simpl. rewrite T. rewrite <- ?app_assoc. simpl.
      by rewrite <- ?app_assoc.
    + rewrite !opened_app, O, Hop. done.
    + intros H. simpl. f_equal. by apply Hret.
  - exists 1%nat, (pre ++ evs1). split; [simpl; lia|]. split; [|split; [|done]].
    + simpl. rewrite T. rewrite <- ?app_assoc. simpl. by rewrite ?app_nil_r.
    + rewrite !opened_app, O. simpl. by rewrite ?take_0.
  - exists 1%nat, (pre ++ evs1). split; [simpl; lia|]. split; [|split; [|done]].
    + simpl. rewrite T. rewrite <- ?app_assoc. simpl. by rewrite ?app_nil_r.
    + rewrite !opened_app, O. simpl. by rewrite ?take_0.
Qed.

Lemma load_outcome_any_world path w1 w2 :
  fst (load_twitter_credentials E path w1) = fst (load_twitter_credentials E path w2).
Proof.
  unfold load_twitter_credentials, mbind, Py_bind, read_file, loads, getitem, log.
  destruct (files E !! path) as [content|]; [|done].
  destruct (json_loads E content) as [api_twitter|]; [|done].
  destruct api_twitter as [| | | | | |top]; try done.
  destruct (top !! "Twitter") as [twitter|]; [|done].
  destruct twitter as [| | | | | |twitter]; try done.
  destruct (twitter !! "consumer_key"); [|done].
  destruct (twitter !! "consumer_secret"); [|done].
  destruct (twitter !! "access_token"); [|done].
  by destruct (twitter !! "access_secret").
Qed.

(** X8: when the credentials cannot be loaded the main function stops at
    once with the loader's exception, having logged its entry line and
    nothing else: no session is set up, no cursor opened, nothing written,
    no sleep. *)
Theorem main_stops_without_credentials fuel keys_filename qs since_date until_date
    mongo_ip mongo_port w e :
  fst (load_twitter_credentials E keys_filename w) = Raises e ->
  download_and_store_tweets_on_default_mongodb_instance E fuel keys_filename qs
    since_date until_date mongo_ip mongo_port w
  = (Raises e,
     emit (Log INFO "download_and_store_tweets_on_default_mongodb_instance >>>") w).
Proof.
  intros He. rewrite (main_unfold E).
  set (w0 := emit (Log INFO "download_and_store_tweets_on_default_mongodb_instance >>>") w).
  rewrite (load_outcome_any_world _ w w0) in He.
  destruct (load_cases E keys_filename w0) as [[e' H]|(v & msg & H)];
    rewrite H in He |- *; simpl in He; [|done].
  by injection He as ->.
Qed.

(** X9: with a valid credentials file, every cursor the main function
    opens belongs to a session built from the file's four strings, each in
    its own place, that waits on rate limits and retries 1000 times 60
    seconds apart; the cursors are those of the first k queries of the
    list, in order, with the given dates and 200 tweets each, and of all
    queries when the function returns. *)
Theorem main_opens_cursors_with_file_credentials fuel keys_filename qs since_date
    until_date mongo_ip mongo_port w ck cs tok sec :
  holds_credentials E keys_filename ck cs tok sec ->
  let r := download_and_store_tweets_on_default_mongodb_instance E fuel keys_filename qs
             since_date until_date mongo_ip mongo_port w in
  exists k evs,
    (k <= length qs)%nat /\
    trace (snd r) = trace w ++ evs /\
    opened evs
    = map (fun query =>
             {| session := {| consumer_key := PStr ck; consumer_secret := PStr cs;
                              access_token := PStr tok; access_secret := PStr sec;
                              wait_on_rate_limit := true;
                              wait_on_rate_limit_notify := true;
                              retry_count := 1000; retry_delay := 60 |};
                q := query +:+ " -filter:retweets";
                since := since_date;
                until := until_date;
                result_type := "mixed";
                items := 200 |})
        (take k qs) /\
    (fst r = Returns tt -> k = length qs).
Proof.
  intros Hvalid r. subst r. rewrite (main_unfold E).
  set (w0 := emit (Log INFO "download_and_store_tweets_on_default_mongodb_instance >>>") w).
  rewrite (load_valid E _ _ _ _ _ _ Hvalid).
  destruct (auth_error E (PStr ck) (PStr cs)) as [e|].
  { exists 0%nat, [Log INFO "download_and_store_tweets_on_default_mongodb_instance >>>";
                   Log DEBUG (credentials_line ck cs tok sec);
                   Log INFO "twitter_api_setup >>>"].
    split; [lia|]. split; [simpl; by rewrite <- ?app_assoc|]. by split. }
  cbv zeta. destruct (client_error E mongo_ip mongo_port) as [e|].
  { exists 0%nat, [Log INFO "download_and_store_tweets_on_default_mongodb_instance >>>";
                   Log DEBUG (credentials_line ck cs tok sec);
                   Log INFO "twitter_api_setup >>>"; Log INFO "twitter_api_setup <<<"].
    split; [lia|]. split; [simpl; by rewrite <- ?app_assoc|]. by split. }
  rewrite (download_unfold E).
  set (api := {| consumer_key := PStr ck; consumer_secret := PStr cs;
                 access_token := PStr tok; access_secret := PStr sec;
                 wait_on_rate_limit := true; wait_on_rate_limit_notify := true;
                 retry_count := 1000; retry_delay := 60 |}).
  set (coll := db_getattr _ "twitter").
  match goal with |- context [for_query E fuel api qs since_date until_date coll ?w1] =>
    destruct (for_query_opened fuel api since_date until_date coll qs w1)
      as (k & evs & Hk & Ht & Hop & Hret);
    destruct (for_query E fuel api qs since_date until_date coll w1) as [[[]|e|] w2] end;
    simpl in Ht.
  - exists k, ([Log INFO "download_and_store_tweets_on_default_mongodb_instance >>>";
                Log DEBUG (credentials_line ck cs tok sec);
                Log INFO "twitter_api_setup >>>"; Log INFO "twitter_api_setup <<<";
                Log INFO "download_and_store_tweets_on_mongodb >>>"] ++ evs
               ++ [Log INFO "download_and_store_tweets_on_mongodb <<<";
                   Log INFO "download_and_store_tweets_on_default_mongodb_instance <<<"]).
    split; [done|]. split; [|split].
    + simpl. rewrite Ht. rewrite <- ?app_assoc. simpl. by rewrite <- ?app_assoc.
    + rewrite !opened_app, Hop. simpl. by rewrite app_nil_r.
    + intros _. by apply Hret.
  - exists k, ([Log INFO "download_and_store_tweets_on_default_mongodb_instance >>>";
                Log DEBUG (credentials_line ck cs tok sec);
                Log INFO "twitter_api_setup >>>"; Log INFO "twitter_api_setup <<<";
                Log INFO "download_and_store_tweets_on_mongodb >>>"] ++ evs).
    split; [done|]. split; [|split; [|done]].
    + simpl. rewrite Ht. rewrite <- ?app_assoc. simpl. by rewrite <- ?app_assoc.
    + by rewrite !opened_app, Hop.
  - exists k, ([Log INFO "download_and_store_tweets_on_default_mongodb_instance >>>";
                Log DEBUG (credentials_line ck cs tok sec);
                Log INFO "twitter_api_setup >>>"; Log INFO "twitter_api_setup <<<";
                Log INFO "download_and_store_tweets_on_mongodb >>>"] ++ evs).
    split; [done|]. split; [|split; [|done]].
    + simpl. rewrite Ht. rewrite <- ?app_assoc. simpl. by rewrite <- ?app_assoc.
    + by rewrite !opened_app, Hop.
Qed.

(** X10: the whole program on the happy path: with a valid credentials
    file, a session and a client whose construction does not raise, cursors
    that yield the tweets [tss i] for the i-th query and stop, and a sink
    that accepts the writes, the main function returns and the collection
    twitter of the database dm_project on the given host and port has
    gained the documents of every query's tweets, in list order, each under
    its own query. *)
Theorem main_stores_every_query fuel keys_filename qs since_date until_date
    mongo_ip mongo_port w ck cs tok sec tss :
  let target := {| coll_db := {| db_client := {| client_host := mongo_ip;
                                                 client_port := mongo_port |};
                                 db_name := "dm_project" |};
                   coll_name := "twitter" |} in
  holds_credentials E keys_filename ck cs tok sec ->
  auth_error E (PStr ck) (PStr cs) = None ->
  client_error E mongo_ip mongo_port = None ->
  (forall i query, qs !! i = Some query ->
     plays (upstream E (length (cursors w) + i)
              (search_request (session_of (PStr ck) (PStr cs) (PStr tok) (PStr sec))
                 query since_date until_date 200))
       0 (map Item (tss i))) ->
  (forall j doc, sink E j target doc = None) ->
  (forall i, (i < length qs)%nat -> (length (tss i) < fuel)%nat) ->
  let r := download_and_store_tweets_on_default_mongodb_instance E fuel keys_filename qs
             since_date until_date mongo_ip mongo_port w in
  fst r = Returns tt /\
  documents target (snd r)
  = documents target w
    ++ concat (imap (fun i query => map (filtered_tweet query) (tss i)) qs).
Proof.
  intros target Hvalid Hauth Hclient Hp Hsink Hfuel r. subst r. rewrite (main_unfold E).
  set (w0 := emit (Log INFO "download_and_store_tweets_on_default_mongodb_instance >>>") w).
  rewrite (load_valid E _ _ _ _ _ _ Hvalid), Hauth. cbv zeta.
  rewrite Hclient, (download_unfold E).
  match goal with |- context [for_query E fuel ?a qs since_date until_date ?c ?w1] =>
    destruct (for_query_stores fuel a since_date until_date c qs w1 tss Hp Hsink Hfuel)
      as [R1 R2];
    destruct (for_query E fuel a qs since_date until_date c w1) as [[[]|e|] w2] end;
    simpl in R1; try done.
Qed.

(** X12: with a valid credentials file, when [tweepy.OAuthHandler] raises
    the main function stops with that exception after the entry line of
    [twitter_api_setup], and when [MongoClient] raises it stops with that
    exception after the exit line of [twitter_api_setup]; in both cases
    the driver is never called: no cursor is opened, no document written,
    no random number drawn. *)
Theorem main_stops_when_session_or_client_fails fuel keys_filename qs since_date
    until_date mongo_ip mongo_port w ck cs tok sec e :
  holds_credentials E keys_filename ck cs tok sec ->
  let r := download_and_store_tweets_on_default_mongodb_instance E fuel keys_filename qs
             since_date until_date mongo_ip mongo_port w in
  let entry := [Log INFO "download_and_store_tweets_on_default_mongodb_instance >>>";
                Log DEBUG (credentials_line ck cs tok sec);
                Log INFO "twitter_api_setup >>>"] in
  (auth_error E (PStr ck) (PStr cs) = Some e ->
   fst r = Raises e /\
   trace (snd r) = trace w ++ entry /\
   cursors (snd r) = cursors w /\ mongo (snd r) = mongo w /\
   inserts (snd r) = inserts w /\ draws (snd r) = draws w) /\
  (auth_error E (PStr ck) (PStr cs) = None ->
   client_error E mongo_ip mongo_port = Some e ->
   fst r = Raises e /\
   trace (snd r) = trace w ++ entry ++ [Log INFO "twitter_api_setup <<<"] /\
   cursors (snd r) = cursors w /\ mongo (snd r) = mongo w /\
   inserts (snd r) = inserts w /\ draws (snd r) = draws w).
Proof.
  intros Hvalid r entry. subst r entry. rewrite (main_unfold E).
  set (w0 := emit (Log INFO "download_and_store_tweets_on_default_mongodb_instance >>>") w).
  rewrite (load_valid E _ _ _ _ _ _ Hvalid).
  split.
  - intros ->. simpl. by rewrite <- ?app_assoc.
  - intros -> ->. simpl. by rewrite <- ?app_assoc.
Qed.

(** ** What the log says about the waits *)

Lemma announced_app prev l1 l2 :
  announced prev (l1 ++ l2) = announced prev l1 && announced (from_option Some prev (last l1)) l2.
Proof.
  revert prev. induction l1 as [|ev l1 IH]; intros prev; [done|].
  simpl. rewrite IH, andb_assoc. do 2 f_equal. rewrite last_cons. by destruct (last l1).
Qed.

Lemma announced_any_prev prev prev' l :
  quiet_start l -> announced prev l = announced prev' l.
Proof. by destruct l as [|[] l]. Qed.

Lemma while_true_announced fuel : forall query coll tweets bc w c,
  cursors w !! tweets = Some c ->
  exists evs,
    trace (snd (while_true E fuel query coll tweets bc w)) = trace w ++ evs /\
    quiet_start evs /\
    announced None evs = true.
Proof.
  induction fuel as [|fuel IH]; intros query coll tweets bc w c Hc.
  { exists []. simpl. by rewrite app_nil_r. }
  pose proof (advance_lookup tweets c 1 w Hc) as Hc1.
  assert (Hgo : forall b w1 evs1,
    cursors w1 = cursors (advance tweets c 1 w) ->
    trace w1 = trace w ++ evs1 ->
    quiet_start evs1 ->
    announced None evs1 = true ->
    exists evs,
      trace (snd (while_true E fuel query coll tweets b w1)) = trace w ++ evs /\
      quiet_start evs /\
      announced None evs = true).
  { intros b w1 evs1 Hw1 Ht1 Hq1 Ha1. rewrite <- Hw1 in Hc1.
    destruct (IH query coll tweets b w1 _ Hc1) as (evs & Ht & Hq & Ha).
    exists (evs1 ++ evs). split; [|split].
    - by rewrite Ht, Ht1, app_assoc.
    - destruct evs1 as [|ev evs1]; [done|by destruct ev].
    - by rewrite announced_app, Ha1, (announced_any_prev _ None _ Hq), Ha. }
  assert (Hstop : forall (o : outcome unit) w1 evs1,
    trace w1 = trace w ++ evs1 ->
    quiet_start evs1 ->
    announced None evs1 = true ->
    exists evs, trace (snd (o, w1)) = trace w ++ evs /\
                quiet_start evs /\ announced None evs = true).
  { intros o w1 evs1 Ht1 Hq1 Ha1. by exists evs1. }
  rewrite (while_true_S E), (try_statement_unfold E _ _ _ _ _ _ Hc). cbv zeta.
  fold (announcement (60 * bc)).
  destruct (upstream E tweets (request c) (calls c)) as [tweet|e].
  - destruct (sink E (inserts w) coll (filtered_tweet query tweet)) as [e|].
    + destruct e;
        first [ eapply Hstop; [simpl; trace_eq|done|]
              | eapply Hgo; [done|simpl; trace_eq|done|] ];
        simpl; by rewrite ?String.eqb_refl.
    + eapply Hgo; [done|simpl; trace_eq|done|done].
  - destruct e;
      first [ eapply Hstop; [simpl; first [trace_eq | symmetry; apply app_nil_r]|done|]
            | eapply Hgo; [done|simpl; first [trace_eq | symmetry; apply app_nil_r]|done|] ];
      simpl; by rewrite ?String.eqb_refl.
Qed.

(** X11: the log tells the waits as they are: in the events of a call,
    whatever its outcome, every sleep comes right after the info line
    "Reached Tweet limits, waiting for N seconds" with N the number of
    seconds slept. *)
Theorem collect_announces_every_sleep fuel api query since_date until_date coll limit w :
  exists evs,
    trace (snd (collect_and_store_tweets_from_query E fuel api query since_date
                  until_date coll limit w)) = trace w ++ evs /\
    announced None evs = true.
Proof.
  rewrite (collect_unfold E). cbv zeta.
  set (req := search_request api query since_date until_date (default 200 limit)) in *.
  set (tweets := length (cursors w)) in *.
  set (w0 := emit (CursorOpen tweets req) _).
  assert (Hc : cursors w0 !! tweets = Some {| request := req; calls := 0 |}).
  { subst w0 tweets. simpl. by rewrite lookup_app_r, Nat.sub_diag. }
  destruct (while_true_announced fuel query coll tweets 1 w0 _ Hc) as (evs & Ht & Hq & Ha).
  destruct (while_true E fuel query coll tweets 1 w0) as [[[]|e|] w'] eqn:Hrun; simpl in Ht.
  - exists ([Log INFO "collect_and_store_tweets_from_query >>>"; CursorOpen tweets req]
            ++ evs ++ [Log INFO "collect_and_store_tweets_from_query <<<"]).
    split.
    + simpl. rewrite Ht. subst w0. simpl. rewrite <- ?app_assoc. simpl.
      by rewrite <- ?app_assoc.
    + by rewrite !announced_app, (announced_any_prev _ None _ Hq), Ha.
  - exists ([Log INFO "collect_and_store_tweets_from_query >>>"; CursorOpen tweets req]
            ++ evs).
    split.
    + simpl. rewrite Ht. subst w0. simpl. rewrite <- ?app_assoc. simpl.
      by rewrite <- ?app_assoc.
    + by rewrite !announced_app, (announced_any_prev _ None _ Hq), Ha.
  - exists ([Log INFO "collect_and_store_tweets_from_query >>>"; CursorOpen tweets req]
            ++ evs).
    split.
    + simpl. rewrite Ht. subst w0. simpl. rewrite <- ?app_assoc. simpl.
      by rewrite <- ?app_assoc.
    + by rewrite !announced_app, (announced_any_prev _ None _ Hq), Ha.
Qed.

End Further.

(** * The further properties at sample inputs *)

Lemma scripted_follows script e :
  follows (Sample.scripted (script ++ [Throw e])) 0 script e.
Proof.
  split.
  - intros j o Hj. unfold Sample.scripted. simpl. by rewrite lookup_app_l_Some with (x := o).
  - unfold Sample.scripted. simpl.
    by rewrite lookup_app_r, Nat.sub_diag.
Qed.


(** Three tweets and an accepting sink. *)
Lemma collect_stores_every_tweet_witness :
  let r := collect_and_store_tweets_from_query Sample.steady 10 Sample.api "rocq"
             "2020-01-01" "2020-01-31" Sample.coll None Sample.world in
  fst r = Returns tt /\
  trace (snd r)
  = trace Sample.world
    ++ [Log INFO "collect_and_store_tweets_from_query >>>";
        CursorOpen 0 Sample.request0]
    ++ flat_map (fun tweet =>
         [Log INFO ("Query: " +:+ "rocq" +:+ ", Tweet_date: "
                    +:+ format_arg Sample.steady (created_at tweet));
          InsertOne Sample.coll (filtered_tweet "rocq" tweet)]) Sample.a_b_c
    ++ [Log INFO ("Finished collecting and storing tweets for " +:+ "rocq");
        Log INFO "collect_and_store_tweets_from_query <<<"] /\
  documents Sample.coll (snd r)
  = documents Sample.coll Sample.world ++ map (filtered_tweet "rocq") Sample.a_b_c.
Proof.
  apply (collect_stores_every_tweet Sample.steady 10 Sample.api "rocq" "2020-01-01"
           "2020-01-31" Sample.coll None Sample.world Sample.a_b_c).
  - apply scripted_plays.
  - intros j doc _. apply sample_sink_accepts.
  - simpl. lia.
Defined.

(** Three tweets, then a connection error. *)
Lemma collect_abort_keeps_earlier_writes_witness :
  let r := collect_and_store_tweets_from_query Sample.fragile 10 Sample.api "rocq"
             "2020-01-01" "2020-01-31" Sample.coll None Sample.world in
  fst r = Raises (OtherException "ConnectionError") /\
  trace (snd r)
  = trace Sample.world
    ++ [Log INFO "collect_and_store_tweets_from_query >>>";
        CursorOpen 0 Sample.request0]
    ++ flat_map (fun tweet =>
         [Log INFO ("Query: " +:+ "rocq" +:+ ", Tweet_date: "
                    +:+ format_arg Sample.fragile (created_at tweet));
          InsertOne Sample.coll (filtered_tweet "rocq" tweet)]) Sample.a_b_c /\
  documents Sample.coll (snd r)
  = documents Sample.coll Sample.world ++ map (filtered_tweet "rocq") Sample.a_b_c.
Proof.
  apply (collect_abort_keeps_earlier_writes Sample.fragile 10 Sample.api "rocq"
           "2020-01-01" "2020-01-31" Sample.coll None Sample.world Sample.a_b_c
           (OtherException "ConnectionError")).
  - apply scripted_follows.
  - reflexivity.
  - intros j doc _. apply sample_sink_accepts.
  - simpl. lia.
Defined.

(** One rate-limit signal: 60 seconds in all. *)
Lemma backoff_sleeps_add_up_witness :
  let r := collect_and_store_tweets_from_query Sample.once 10 Sample.api "rocq"
             "2020-01-01" "2020-01-31" Sample.coll None Sample.world in
  exists n evs,
    cursors (snd r) = cursors Sample.world
                      ++ [{| request := Sample.request0; calls := n |}] /\
    trace (snd r) = trace Sample.world ++ evs /\
    let m := Z.of_nat (rate_limits (upstream Sample.once 0 Sample.request0) 0 n) in
    total (sleeps evs) = 30 * m * (m + 1).
Proof.
  apply (backoff_sleeps_add_up Sample.once 10 Sample.api "rocq" "2020-01-01" "2020-01-31"
           Sample.coll None Sample.world).
  intros k doc e He. unfold Sample.once in He. by rewrite sample_sink_accepts in He.
Defined.

(** The fifth call of [next()] is the one that ends the sequence. *)
Lemma collect_returns_only_at_exhaustion_witness :
  let r := collect_and_store_tweets_from_query Sample.once 10 Sample.api "rocq"
             "2020-01-01" "2020-01-31" Sample.coll None Sample.world in
  exists n,
    cursors (snd r) = cursors Sample.world
                      ++ [{| request := Sample.request0; calls := S n |}] /\
    upstream Sample.once 0 Sample.request0 n = Throw StopIteration /\
    forall j, (j < n)%nat -> upstream Sample.once 0 Sample.request0 j <> Throw StopIteration.
Proof.
  apply (collect_returns_only_at_exhaustion Sample.once 10 Sample.api "rocq" "2020-01-01"
           "2020-01-31" Sample.coll None Sample.world).
  - intros k doc. unfold Sample.once. by rewrite sample_sink_accepts.
  - vm_compute. reflexivity.
Defined.

(** Two queries, two and one tweets. *)
Lemma download_stores_every_query_witness :
  let r := download_and_store_tweets_on_mongodb Sample.library 10 Sample.api ["q1"; "q2"]
             "2020-01-01" "2020-01-31" Sample.coll Sample.world in
  fst r = Returns tt /\
  documents Sample.coll (snd r)
  = documents Sample.coll Sample.world
    ++ concat (imap (fun i query => map (filtered_tweet query) (Sample.per_query i))
                 ["q1"; "q2"]).
Proof.
  apply (download_stores_every_query Sample.library 10 Sample.api ["q1"; "q2"]
           "2020-01-01" "2020-01-31" Sample.coll Sample.world Sample.per_query).
  - intros i query _. apply scripted_plays.
  - intros j doc. apply sample_sink_accepts.
  - intros i _. unfold Sample.per_query. case_decide; simpl; lia.
Defined.


(** No key file. *)
Lemma main_stops_without_credentials_witness :
  download_and_store_tweets_on_default_mongodb_instance Sample.steady 10 "absent.json"
    ["q1"; "q2"] "2020-01-01" "2020-01-31" "localhost" 27017 Sample.world
  = (Raises (FileNotFoundError "absent.json"),
     emit (Log INFO "download_and_store_tweets_on_default_mongodb_instance >>>")
       Sample.world).
Proof.
  apply (main_stops_without_credentials Sample.steady 10 "absent.json" ["q1"; "q2"]
           "2020-01-01" "2020-01-31" "localhost" 27017 Sample.world).
  vm_compute. reflexivity.
Defined.

(** The sample key file and two queries. *)
Lemma main_opens_cursors_with_file_credentials_witness :
  let r := download_and_store_tweets_on_default_mongodb_instance Sample.steady 10
             "keys.json" ["q1"; "q2"] "2020-01-01" "2020-01-31" "localhost" 27017
             Sample.world in
  exists k evs,
    (k <= 2)%nat /\
    trace (snd r) = trace Sample.world ++ evs /\
    opened evs
    = map (fun query => search_request Sample.api query "2020-01-01" "2020-01-31" 200)
        (take k ["q1"; "q2"]) /\
    (fst r = Returns tt -> k = 2%nat).
Proof.
  apply (main_opens_cursors_with_file_credentials Sample.steady 10 "keys.json"
           ["q1"; "q2"] "2020-01-01" "2020-01-31" "localhost" 27017 Sample.world
           "ck" "cs" "tok" "sec").
  apply sample_env_keys_valid.
Defined.

(** The whole program on the sample key file and two queries. *)
Lemma main_stores_every_query_witness :
  let r := download_and_store_tweets_on_default_mongodb_instance Sample.library 10
             "keys.json" ["q1"; "q2"] "2020-01-01" "2020-01-31" "localhost" 27017
             Sample.world in
  fst r = Returns tt /\
  documents Sample.coll (snd r)
  = documents Sample.coll Sample.world
    ++ concat (imap (fun i query => map (filtered_tweet query) (Sample.per_query i))
                 ["q1"; "q2"]).
Proof.
  apply (main_stores_every_query Sample.library 10 "keys.json" ["q1"; "q2"] "2020-01-01"
           "2020-01-31" "localhost" 27017 Sample.world "ck" "cs" "tok" "sec"
           Sample.per_query).
  - apply sample_env_keys_valid.
  - reflexivity.
  - reflexivity.
  - intros i query _. apply scripted_plays.
  - intros j doc. apply sample_sink_accepts.
  - intros i _. unfold Sample.per_query. case_decide; simpl; lia.
Defined.

Lemma sample_unauthorised_keys_valid :
  holds_credentials Sample.unauthorised "keys.json" "ck" "cs" "tok" "sec".
Proof.
  exists "valid", {[ "Twitter" :=
    PDict (list_to_map [("consumer_key", PStr "ck"); ("consumer_secret", PStr "cs");
                        ("access_token", PStr "tok"); ("access_secret", PStr "sec")]) ]},
    (list_to_map [("consumer_key", PStr "ck"); ("consumer_secret", PStr "cs");
                  ("access_token", PStr "tok"); ("access_secret", PStr "sec")]).
  repeat split; vm_compute; reflexivity.
Qed.

Lemma sample_offline_keys_valid :
  holds_credentials Sample.offline "keys.json" "ck" "cs" "tok" "sec".
Proof.
  exists "valid", {[ "Twitter" :=
    PDict (list_to_map [("consumer_key", PStr "ck"); ("consumer_secret", PStr "cs");
                        ("access_token", PStr "tok"); ("access_secret", PStr "sec")]) ]},
    (list_to_map [("consumer_key", PStr "ck"); ("consumer_secret", PStr "cs");
                  ("access_token", PStr "tok"); ("access_secret", PStr "sec")]).
  repeat split; vm_compute; reflexivity.
Qed.

(** A session that cannot be built, and a client given an empty host. *)
Lemma main_stops_when_session_or_client_fails_witness :
  (let r := download_and_store_tweets_on_default_mongodb_instance Sample.unauthorised 10
              "keys.json" ["q1"; "q2"] "2020-01-01" "2020-01-31" "localhost" 27017
              Sample.world in
   fst r = Raises (OtherException "UnicodeEncodeError") /\
   trace (snd r)
   = trace Sample.world
     ++ [Log INFO "download_and_store_tweets_on_default_mongodb_instance >>>";
         Log DEBUG "ck-cs-tok-sec"; Log INFO "twitter_api_setup >>>"] /\
   cursors (snd r) = cursors Sample.world /\ mongo (snd r) = mongo Sample.world /\
   inserts (snd r) = inserts Sample.world /\ draws (snd r) = draws Sample.world) /\
  (let r := download_and_store_tweets_on_default_mongodb_instance Sample.offline 10
              "keys.json" ["q1"; "q2"] "2020-01-01" "2020-01-31" "" 27017
              Sample.world in
   fst r = Raises (OtherException "ConfigurationError") /\
   trace (snd r)
   = trace Sample.world
     ++ [Log INFO "download_and_store_tweets_on_default_mongodb_instance >>>";
         Log DEBUG "ck-cs-tok-sec"; Log INFO "twitter_api_setup >>>"]
     ++ [Log INFO "twitter_api_setup <<<"] /\
   cursors (snd r) = cursors Sample.world /\ mongo (snd r) = mongo Sample.world /\
   inserts (snd r) = inserts Sample.world /\ draws (snd r) = draws Sample.world).
Proof.
  split.
  - apply (proj1 (main_stops_when_session_or_client_fails Sample.unauthorised 10
                    "keys.json" ["q1"; "q2"] "2020-01-01" "2020-01-31" "localhost" 27017
                    Sample.world "ck" "cs" "tok" "sec"
                    (OtherException "UnicodeEncodeError")
                    sample_unauthorised_keys_valid)).
    reflexivity.
  - apply (proj2 (main_stops_when_session_or_client_fails Sample.offline 10
                    "keys.json" ["q1"; "q2"] "2020-01-01" "2020-01-31" "" 27017
                    Sample.world "ck" "cs" "tok" "sec"
                    (OtherException "ConfigurationError")
                    sample_offline_keys_valid)).
    + reflexivity.
    + reflexivity.
Defined.
